(** * DeepTutor agent core: structured-output extraction, prompt loading,
      material organizer and base-agent call contract.

    A shallow embedding of
      - [src/agents/solve/utils/json_utils.py]      (extract_json_from_text,
                                                      clean_json_string)
      - [src/agents/solve/utils/prompt_loader.py]   (PromptLoader,
                                                      get_prompt_loader)
      - [src/agents/ideagen/material_organizer_agent.py]
      - [src/agents/ideagen/base_idea_agent.py]     (BaseIdeaAgent.call_llm)
      - [src/agents/solve/base_agent.py]            (BaseAgent)
    together with the part of the Python runtime these functions rely on
    ([str] methods, [re] searches for the three patterns used, and the
    [json] decoder and encoder). *)

From Stdlib Require Import ZArith NArith Ascii String List Bool Lia.
From Stdlib Require Import DecimalString DecimalFacts DecimalPos DecimalN DecimalZ.
From stdpp Require Import base option list gmap.

Local Open Scope N_scope.
Local Open Scope list_scope.

(** ** Python text

    A Python [str] is a sequence of Unicode code points. *)

Definition str := list N.

(** Source literals (ASCII) are written as Rocq strings and read through
    [lit]. *)
Definition lit (s : string) : str :=
  List.map N_of_ascii (list_ascii_of_string s).

Definition ch (a : ascii) : N := N_of_ascii a.
Definition dquote : N := 34.
Arguments ch : simpl never.
Arguments dquote : simpl never.

(** A literal in which an apostrophe stands for the double quote. *)
Definition qlit (s : string) : str :=
  List.map (fun c => if c =? 39 then dquote else c) (lit s).

(** [s.startswith(p)], returning what follows the prefix. *)
Fixpoint strip_prefix (p s : str) : option str :=
  match p with
  | [] => Some s
  | a :: p' =>
      match s with
      | [] => None
      | b :: s' => if a =? b then strip_prefix p' s' else None
      end
  end.

Definition startswith (p s : str) : bool :=
  match strip_prefix p s with Some _ => true | None => false end.

(** [sub in s] *)
Fixpoint contains (sub s : str) : bool :=
  startswith sub s ||
  match s with
  | [] => false
  | _ :: s' => contains sub s'
  end.

(** [str.isspace] on one code point (CPython's [Py_UNICODE_ISSPACE]); the
    regular-expression class [\s] of a [str] pattern is the same set. *)
Definition isspace (c : N) : bool :=
  ((9 <=? c) && (c <=? 13)) || ((28 <=? c) && (c <=? 32)) ||
  (c =? 133) || (c =? 160) || (c =? 5760) ||
  ((8192 <=? c) && (c <=? 8202)) || (c =? 8232) || (c =? 8233) ||
  (c =? 8239) || (c =? 8287) || (c =? 12288).

Fixpoint lstrip (s : str) : str :=
  match s with
  | c :: s' => if isspace c then lstrip s' else s
  | [] => []
  end.

Definition rstrip (s : str) : str := rev (lstrip (rev s)).

(** [s.strip()] *)
Definition strip (s : str) : str := rstrip (lstrip s).

(** [sep.join(parts)] *)
Fixpoint join (sep : str) (parts : list str) : str :=
  match parts with
  | [] => []
  | [p] => p
  | p :: ps => p ++ sep ++ join sep ps
  end.

(** ** Exceptions

    Fallible code returns [res]; [Raise e] is an exception leaving the
    function. *)

Inductive exn :=
| JSONDecodeError
| ValueError (msg : str)
| FileNotFoundError (msg : str)
| AttributeError
| TypeError
| KeyError (key : str)
| DecoderFuel.

Inductive res (A : Type) :=
| Ok (a : A)
| Raise (e : exn).
Arguments Ok {A} a.
Arguments Raise {A} e.

#[global] Instance res_ret : MRet res := fun A a => Ok a.
#[global] Instance res_bind : MBind res := fun A B k c =>
  match c with
  | Ok a => k a
  | Raise e => Raise e
  end.

(** ** Regular expressions

    The three patterns of [json_utils.py] use literals, an optional literal,
    greedy and lazy stars over a character class, and one capture group.
    [re_match] is a backtracking matcher with the priorities of Python's
    [re]: a greedy star first tries to take one more character, a lazy
    star first tries to stop, an optional item first tries to be present. *)

Inductive item :=
| ILit (l : str)
| IOpt (l : str)
| IStar (cls : N -> bool)
| IStarLazy (cls : N -> bool)
| IGroupOpen
| IGroupClose.

Record span := { sp_end : nat; sp_gopen : nat; sp_gclose : nat }.

Definition or_else {A} (a b : option A) : option A :=
  match a with Some _ => a | None => b end.

Fixpoint re_match (pat : list item) (s : str) (pos go gc : nat) {struct pat}
  : option span :=
  match pat with
  | [] => Some {| sp_end := pos; sp_gopen := go; sp_gclose := gc |}
  | ILit l :: pat' =>
      match strip_prefix l s with
      | Some s' => re_match pat' s' (pos + length l)%nat go gc
      | None => None
      end
  | IOpt l :: pat' =>
      or_else
        (match strip_prefix l s with
         | Some s' => re_match pat' s' (pos + length l)%nat go gc
         | None => None
         end)
        (re_match pat' s pos go gc)
  | IStar cls :: pat' =>
      (fix star (s : str) (pos : nat) {struct s} : option span :=
         match s with
         | c :: s' =>
             if cls c
             then or_else (star s' (S pos)) (re_match pat' s pos go gc)
             else re_match pat' s pos go gc
         | [] => re_match pat' s pos go gc
         end) s pos
  | IStarLazy cls :: pat' =>
      (fix star (s : str) (pos : nat) {struct s} : option span :=
         or_else (re_match pat' s pos go gc)
           (match s with
            | c :: s' => if cls c then star s' (S pos) else None
            | [] => None
            end)) s pos
  | IGroupOpen :: pat' => re_match pat' s pos pos gc
  | IGroupClose :: pat' => re_match pat' s pos go pos
  end.

(** [pattern.search(text)]: the match at the leftmost position that has
    one.  The result is the start position and the span. *)
Fixpoint re_search_from (pat : list item) (s : str) (pos : nat)
  : option (nat * span) :=
  match re_match pat s pos 0%nat 0%nat with
  | Some m => Some (pos, m)
  | None =>
      match s with
      | [] => None
      | _ :: s' => re_search_from pat s' (S pos)
      end
  end.

Definition re_search (pat : list item) (text : str) : option (nat * span) :=
  re_search_from pat text 0%nat.

Definition slice (text : str) (i j : nat) : str :=
  take (j - i)%nat (drop i text).

(** [m.group(0)] and [m.group(1)] *)
Definition group0 (text : str) (m : nat * span) : str :=
  slice text (fst m) (sp_end (snd m)).
Definition group1 (text : str) (m : nat * span) : str :=
  slice text (sp_gopen (snd m)) (sp_gclose (snd m)).

Definition any_char (c : N) : bool := true.

(** [r"```(?:json)?\s*([\s\S]*?)\s*```"] *)
Definition code_block_pattern : list item :=
  [ILit (lit "```"); IOpt (lit "json"); IStar isspace;
   IGroupOpen; IStarLazy any_char; IGroupClose;
   IStar isspace; ILit (lit "```")].

(** [r"\{[\s\S]*\}"] and [r"\[[\s\S]*\]"] *)
Definition json_obj_pattern : list item :=
  [ILit (lit "{"); IStar any_char; ILit (lit "}")].
Definition json_arr_pattern : list item :=
  [ILit (lit "["); IStar any_char; ILit (lit "]")].

(** ** Python values

    The values [json.loads] produces; YAML documents are taken within the
    same data model (string keys, no dates or binary data).  A [dict] keeps
    its keys in insertion order.  A float is kept as the literal it was
    read from: no function modelled here computes with one. *)

#[warnings="-register-all"] Inductive pyval :=
| PNone
| PBool (b : bool)
| PInt (z : Z)
| PFloat (literal : str)
| PStr (s : str)
| PList (l : list pyval)
| PDict (d : list (str * pyval)).

Definition str_eqb (a b : str) : bool := bool_decide (a = b).

(** [key in d] and [d.get(key)] on the pairs of a dict *)
Fixpoint dict_lookup (d : list (str * pyval)) (key : str) : option pyval :=
  match d with
  | [] => None
  | (k, v) :: d' => if str_eqb k key then Some v else dict_lookup d' key
  end.

Definition dict_has (d : list (str * pyval)) (key : str) : bool :=
  match dict_lookup d key with Some _ => true | None => false end.

(** [d[key] = v]: an existing key keeps its position. *)
Fixpoint dict_set (d : list (str * pyval)) (key : str) (v : pyval)
  : list (str * pyval) :=
  match d with
  | [] => [(key, v)]
  | (k, w) :: d' =>
      if str_eqb k key then (k, v) :: d' else (k, w) :: dict_set d' key v
  end.

(** [dict(pairs)] *)
Definition dict_of_pairs (pairs : list (str * pyval)) : list (str * pyval) :=
  fold_left (fun d kv => dict_set d (fst kv) (snd kv)) pairs [].

(** ** The JSON decoder ([json.loads])

    The scanner follows CPython's [json.decoder] and [json.scanner]:
    [scanstring], [JSONObject], [JSONArray], [scan_once] and [decode].
    [Malformed] stands for the [JSONDecodeError] (or the internal
    [StopIteration] that becomes one). *)

Inductive scan (A : Type) :=
| Scanned (a : A) (rest : str)
| Malformed
| NoFuel.
Arguments Scanned {A} a rest.
Arguments Malformed {A}.
Arguments NoFuel {A}.

Definition scan_then {A B} (c : scan A) (k : A -> str -> scan B) : scan B :=
  match c with
  | Scanned a rest => k a rest
  | Malformed => Malformed
  | NoFuel => NoFuel
  end.

(** JSON whitespace: space, tab, line feed, carriage return *)
Definition json_ws (c : N) : bool :=
  (c =? 32) || (c =? 9) || (c =? 10) || (c =? 13).

Fixpoint skip_ws (s : str) : str :=
  match s with
  | c :: s' => if json_ws c then skip_ws s' else s
  | [] => []
  end.

Definition is_digit (c : N) : bool := (48 <=? c) && (c <=? 57).

Definition hexval (c : N) : option N :=
  if is_digit c then Some (c - 48)
  else if (97 <=? c) && (c <=? 102) then Some (c - 87)
  else if (65 <=? c) && (c <=? 70) then Some (c - 55)
  else None.

(** Four hexadecimal digits: [c <<= 4; c |= digit] for each. *)
Definition hex4 (h1 h2 h3 h4 : N) : option N :=
  match hexval h1, hexval h2, hexval h3, hexval h4 with
  | Some a, Some b, Some c, Some d =>
      Some (N.lor (N.shiftl (N.lor (N.shiftl (N.lor (N.shiftl a 4) b) 4) c) 4) d)
  | _, _, _, _ => None
  end.

Definition is_high_surrogate (c : N) : bool := (55296 <=? c) && (c <=? 56319).
Definition is_low_surrogate (c : N) : bool := (56320 <=? c) && (c <=? 57343).

(** [Py_UNICODE_JOIN_SURROGATES] *)
Definition join_surrogates (hi lo : N) : N :=
  N.lor (N.shiftl (N.land hi 1023) 10) (N.land lo 1023) + 65536.

(** The character after a backslash, other than [u]. *)
Definition simple_escape (e : N) : option N :=
  if e =? dquote then Some (dquote)
  else if e =? ch "\" then Some (ch "\")
  else if e =? ch "/" then Some (ch "/")
  else if e =? ch "b" then Some 8
  else if e =? ch "f" then Some 12
  else if e =? ch "n" then Some 10
  else if e =? ch "r" then Some 13
  else if e =? ch "t" then Some 9
  else None.

Definition scan_cons (c : N) (r : scan str) : scan str :=
  scan_then r (fun s rest => Scanned (c :: s) rest).

(** [scanstring(s, end, strict=True)], entered after the opening quote. *)
Fixpoint scanstring (s : str) {struct s} : scan str :=
  match s with
  | [] => Malformed
  | c :: s1 =>
      if c =? dquote then Scanned [] s1
      else if c =? ch "\" then
        match s1 with
        | [] => Malformed
        | e :: s2 =>
            if e =? ch "u" then
              match s2 with
              | h1 :: h2 :: h3 :: h4 :: s3 =>
                  match hex4 h1 h2 h3 h4 with
                  | None => Malformed
                  | Some uni =>
                      if is_high_surrogate uni then
                        match s3 with
                        | b :: u :: s4 =>
                            if (b =? ch "\") && (u =? ch "u") then
                              match s4 with
                              | g1 :: g2 :: g3 :: g4 :: s5 =>
                                  match hex4 g1 g2 g3 g4 with
                                  | None => Malformed
                                  | Some uni2 =>
                                      if is_low_surrogate uni2
                                      then scan_cons (join_surrogates uni uni2)
                                             (scanstring s5)
                                      else scan_cons uni (scanstring s3)
                                  end
                              | _ => scan_cons uni (scanstring s3)
                              end
                            else scan_cons uni (scanstring s3)
                        | _ => scan_cons uni (scanstring s3)
                        end
                      else scan_cons uni (scanstring s3)
                  end
              | _ => Malformed
              end
            else
              match simple_escape e with
              | Some c' => scan_cons c' (scanstring s2)
              | None => Malformed
              end
        end
      else if c <? 32 then Malformed
      else scan_cons c (scanstring s1)
  end.

(** *** Numbers

    [NUMBER_RE]: an optional minus sign, an integer part without leading
    zero, an optional fraction, an optional exponent.  Without fraction
    and exponent the literal is an [int]. *)

Fixpoint span_digits (s : str) : str * str :=
  match s with
  | c :: s' =>
      if is_digit c
      then let (d, r) := span_digits s' in (c :: d, r)
      else ([], s)
  | [] => ([], [])
  end.

Definition digit_cons (c : N) (u : Decimal.uint) : Decimal.uint :=
  match c - 48 with
  | 0 => Decimal.D0 u | 1 => Decimal.D1 u | 2 => Decimal.D2 u
  | 3 => Decimal.D3 u | 4 => Decimal.D4 u | 5 => Decimal.D5 u
  | 6 => Decimal.D6 u | 7 => Decimal.D7 u | 8 => Decimal.D8 u
  | _ => Decimal.D9 u
  end.

Definition uint_of_digits (d : str) : Decimal.uint :=
  fold_right digit_cons Decimal.Nil d.

Fixpoint digits_of_uint (u : Decimal.uint) : str :=
  match u with
  | Decimal.Nil => []
  | Decimal.D0 u' => 48 :: digits_of_uint u'
  | Decimal.D1 u' => 49 :: digits_of_uint u'
  | Decimal.D2 u' => 50 :: digits_of_uint u'
  | Decimal.D3 u' => 51 :: digits_of_uint u'
  | Decimal.D4 u' => 52 :: digits_of_uint u'
  | Decimal.D5 u' => 53 :: digits_of_uint u'
  | Decimal.D6 u' => 54 :: digits_of_uint u'
  | Decimal.D7 u' => 55 :: digits_of_uint u'
  | Decimal.D8 u' => 56 :: digits_of_uint u'
  | Decimal.D9 u' => 57 :: digits_of_uint u'
  end.

(** [int(literal)] for a literal of digits with an optional sign *)
Definition int_of_literal (neg : bool) (digits : str) : Z :=
  let n := Z.of_N (N.of_uint (uint_of_digits digits)) in
  if neg then (- n)%Z else n.

(** [str(z)] for an [int] *)
Definition str_of_int (z : Z) : str :=
  match z with
  | Zneg p => ch "-" :: digits_of_uint (Pos.to_uint p)
  | _ => digits_of_uint (N.to_uint (Z.to_N z))
  end.

Definition integer_part (s : str) : option (str * str) :=
  match s with
  | d :: s' =>
      if d =? ch "0" then Some ([d], s')
      else if is_digit d
           then let (ds, r) := span_digits s' in Some (d :: ds, r)
           else None
  | [] => None
  end.

Definition fraction_part (s : str) : str * str :=
  match s with
  | p :: s' =>
      if p =? ch "." then
        match span_digits s' with
        | ([], _) => ([], s)
        | (fd, r) => (p :: fd, r)
        end
      else ([], s)
  | [] => ([], s)
  end.

Definition exponent_part (s : str) : str * str :=
  match s with
  | e :: s' =>
      if (e =? ch "e") || (e =? ch "E") then
        let (sg, s'') :=
          match s' with
          | g :: t => if (g =? ch "-") || (g =? ch "+") then ([g], t) else ([], s')
          | [] => ([], s')
          end in
        match span_digits s'' with
        | ([], _) => ([], s)
        | (ed, r) => (e :: sg ++ ed, r)
        end
      else ([], s)
  | [] => ([], s)
  end.

Definition match_number (s : str) : option (pyval * str) :=
  let (neg, s1) :=
    match s with
    | c :: s' => if c =? ch "-" then (true, s') else (false, s)
    | [] => (false, s)
    end in
  match integer_part s1 with
  | None => None
  | Some (ip, r) =>
      let (frac, r1) := fraction_part r in
      let (ex, r2) := exponent_part r1 in
      match frac, ex with
      | [], [] => Some (PInt (int_of_literal neg ip), r2)
      | _, _ =>
          Some (PFloat ((if neg then [ch "-"] else []) ++ ip ++ frac ++ ex), r2)
      end
  end.

(** The constants and numbers of [scan_once]. *)
Definition scan_atom (s : str) : scan pyval :=
  match strip_prefix (lit "null") s with
  | Some r => Scanned PNone r
  | None =>
  match strip_prefix (lit "true") s with
  | Some r => Scanned (PBool true) r
  | None =>
  match strip_prefix (lit "false") s with
  | Some r => Scanned (PBool false) r
  | None =>
  match match_number s with
  | Some (v, r) => Scanned v r
  | None =>
  match strip_prefix (lit "NaN") s with
  | Some r => Scanned (PFloat (lit "NaN")) r
  | None =>
  match strip_prefix (lit "Infinity") s with
  | Some r => Scanned (PFloat (lit "Infinity")) r
  | None =>
  match strip_prefix (lit "-Infinity") s with
  | Some r => Scanned (PFloat (lit "-Infinity")) r
  | None => Malformed
  end end end end end end end.

(** *** Values

    [scan_once] with [JSONArray] and [JSONObject].  The recursion of the
    decoder is on the nesting of the text; here it is on [fuel], and
    [json_loads] supplies enough (lemma [scan_once_fuel]). *)

Fixpoint scan_once (fuel : nat) (s : str) {struct fuel} : scan pyval :=
  match fuel with
  | O => NoFuel
  | S fuel' =>
      match s with
      | [] => Malformed
      | c :: s1 =>
          if c =? dquote then
            scan_then (scanstring s1) (fun k rest => Scanned (PStr k) rest)
          else if c =? ch "{" then
            match skip_ws s1 with
            | c1 :: s2 =>
                if c1 =? ch "}" then Scanned (PDict []) s2
                else if c1 =? dquote then
                  scan_then (object_pairs fuel' s2)
                    (fun pairs rest => Scanned (PDict (dict_of_pairs pairs)) rest)
                else Malformed
            | [] => Malformed
            end
          else if c =? ch "[" then
            match skip_ws s1 with
            | c1 :: s2 =>
                if c1 =? ch "]" then Scanned (PList []) s2
                else
                  scan_then (array_values fuel' (c1 :: s2))
                    (fun values rest => Scanned (PList values) rest)
            | [] => Malformed
            end
          else scan_atom s
      end
  end

(** The loop of [JSONObject], entered after the opening quote of a key. *)
with object_pairs (fuel : nat) (s : str) {struct fuel}
  : scan (list (str * pyval)) :=
  match fuel with
  | O => NoFuel
  | S fuel' =>
      scan_then (scanstring s) (fun key rest =>
      match skip_ws rest with
      | c :: rest1 =>
          if c =? ch ":" then
            scan_then (scan_once fuel' (skip_ws rest1)) (fun value rest2 =>
            match skip_ws rest2 with
            | c2 :: rest3 =>
                if c2 =? ch "}" then Scanned [(key, value)] rest3
                else if c2 =? ch "," then
                  match skip_ws rest3 with
                  | c3 :: rest4 =>
                      if c3 =? dquote then
                        scan_then (object_pairs fuel' rest4)
                          (fun pairs rest5 => Scanned ((key, value) :: pairs) rest5)
                      else Malformed
                  | [] => Malformed
                  end
                else Malformed
            | [] => Malformed
            end)
          else Malformed
      | [] => Malformed
      end)
  end

(** The loop of [JSONArray], entered at the first character of a value. *)
with array_values (fuel : nat) (s : str) {struct fuel} : scan (list pyval) :=
  match fuel with
  | O => NoFuel
  | S fuel' =>
      scan_then (scan_once fuel' s) (fun value rest =>
      match skip_ws rest with
      | c :: rest1 =>
          if c =? ch "]" then Scanned [value] rest1
          else if c =? ch "," then
            scan_then (array_values fuel' (skip_ws rest1))
              (fun values rest2 => Scanned (value :: values) rest2)
          else Malformed
      | [] => Malformed
      end)
  end.

Definition decoder_fuel (s : str) : nat := (2 * length s + 1)%nat.

(** [json.loads(s)] for a [str]: a leading byte-order mark is refused, the
    value may be surrounded by whitespace, and nothing else may follow. *)
Definition json_loads (s : str) : res pyval :=
  if startswith [65279] s then Raise JSONDecodeError
  else
    match scan_once (decoder_fuel (skip_ws s)) (skip_ws s) with
    | Scanned v rest =>
        match skip_ws rest with
        | [] => Ok v
        | _ :: _ => Raise JSONDecodeError
        end
    | Malformed => Raise JSONDecodeError
    | NoFuel => Raise DecoderFuel
    end.

(** ** The JSON encoder ([json.dumps] with its defaults)

    [ensure_ascii=True]: everything outside [' '..'~'], the quote and the
    backslash are escaped; separators are [", "] and [": "]. *)






(** ** [extract_json_from_text]  (json_utils.py)

    [try: return json.loads(...) except json.JSONDecodeError: pass]:
    a decoded value is returned, a decode error goes on to [next], any
    other exception leaves the function. *)
Definition try_return (attempt : res pyval) (next : res pyval) : res pyval :=
  match attempt with
  | Ok v => Ok v
  | Raise JSONDecodeError => next
  | Raise e => Raise e
  end.

(** The array pattern, line 77 to the end. *)
Definition extract_array (text : str) : res pyval :=
  match re_search json_arr_pattern text with
  | Some m => try_return (json_loads (group0 text m)) (Ok PNone)
  | None => Ok PNone
  end.

(** The object pattern, line 69 to the end. *)
Definition extract_object (text : str) : res pyval :=
  match re_search json_obj_pattern text with
  | Some m => try_return (json_loads (group0 text m)) (extract_array text)
  | None => extract_array text
  end.

(** The direct parse, line 58 to the end. *)
Definition extract_direct (text : str) : res pyval :=
  try_return (json_loads text) (extract_object text).

Definition extract_json_from_text (text : str) : res pyval :=
  match text with
  | [] => Ok PNone
  | _ :: _ =>
      match re_search code_block_pattern text with
      | Some m =>
          let json_str := strip (group1 text m) in
          try_return (json_loads json_str) (extract_direct text)
      | None => extract_direct text
      end
  end.

(** ** Python operations on values

    What the built-in [str()] prints for a value that is not a [str], when
    a float is zero, and [str.format] are not fixed here: they are fields
    of [runtime], and every result below holds for each choice. *)

Record runtime := {
  rt_repr : pyval -> str;
  rt_float_nonzero : str -> bool;
  rt_format : str -> list (str * str) -> res str
}.

(** [str(v)], also [f"{v}"] *)
Definition py_str (rt : runtime) (v : pyval) : str :=
  match v with
  | PStr s => s
  | _ => rt_repr rt v
  end.

(** [bool(v)] *)
Definition py_truthy (rt : runtime) (v : pyval) : bool :=
  match v with
  | PNone => false
  | PBool b => b
  | PInt z => negb (z =? 0)%Z
  | PFloat l => rt_float_nonzero rt l
  | PStr s => match s with [] => false | _ => true end
  | PList l => match l with [] => false | _ => true end
  | PDict d => match d with [] => false | _ => true end
  end.

Definition is_str_value (key : str) (v : pyval) : bool :=
  match v with
  | PStr s => str_eqb s key
  | _ => false
  end.

(** [key in v] for a [str] key *)
Definition py_in (key : str) (v : pyval) : res bool :=
  match v with
  | PDict d => Ok (dict_has d key)
  | PList l => Ok (existsb (is_str_value key) l)
  | PStr s => Ok (contains key s)
  | _ => Raise TypeError
  end.

(** [v[key]] for a [str] key *)
Definition py_getitem (v : pyval) (key : str) : res pyval :=
  match v with
  | PDict d =>
      match dict_lookup d key with
      | Some x => Ok x
      | None => Raise (KeyError key)
      end
  | _ => Raise TypeError
  end.

(** [v.get(key, default)] *)
Definition py_get (v : pyval) (key : str) (default : pyval) : res pyval :=
  match v with
  | PDict d =>
      match dict_lookup d key with
      | Some x => Ok x
      | None => Ok default
      end
  | _ => Raise AttributeError
  end.

(** [len(v)] *)
Definition py_len (v : pyval) : res nat :=
  match v with
  | PStr s => Ok (length s)
  | PList l => Ok (length l)
  | PDict d => Ok (length d)
  | _ => Raise TypeError
  end.

(** The items [for x in v] visits. *)
Definition py_iter (v : pyval) : res (list pyval) :=
  match v with
  | PList l => Ok l
  | PStr s => Ok (List.map (fun c => PStr [c]) s)
  | PDict d => Ok (List.map (fun kv => PStr (fst kv)) d)
  | _ => Raise TypeError
  end.

Definition is_dict (v : pyval) : bool :=
  match v with PDict _ => true | _ => false end.
Definition is_str (v : pyval) : bool :=
  match v with PStr _ => true | _ => false end.

(** [sep.join(parts)] for a list of values: every part must be a [str]. *)
Fixpoint str_parts (parts : list pyval) : res (list str) :=
  match parts with
  | [] => Ok []
  | PStr s :: ps => rest ← str_parts ps; Ok (s :: rest)
  | _ :: _ => Raise TypeError
  end.

Definition py_join (sep : str) (parts : list pyval) : res str :=
  ss ← str_parts parts; Ok (join sep ss).

Definition nl : str := [10].

(** ** PromptLoader  (prompt_loader.py) *)

(** What the loader sees of the disk: [Path.exists], [Path.rglob] and
    [yaml.safe_load] of an opened file ([inl] is the text of the exception
    that opening or parsing raised). *)
Record filesystem := {
  fs_exists : str -> bool;
  fs_rglob : str -> str -> list str;
  fs_yaml : str -> str + pyval
}.

(** [a / b] for relative components *)
Definition path_join (a b : str) : str := a ++ lit "/" ++ b.

Record loader := {
  base_dir : str;
  language : str;
  cache : gmap str pyval
}.

(** [PromptLoader(base_dir, language)] *)
Definition new_loader (dir lang : str) : loader :=
  {| base_dir := dir; language := lang; cache := ∅ |}.

Definition supported_language (lang : str) : bool :=
  str_eqb lang (lit "zh") || str_eqb lang (lit "en").

Definition set_language (lang : str) (st : loader) : res unit * loader :=
  if negb (supported_language lang)
  then (Raise (ValueError (lit "Unsupported language: " ++ lang ++
                           lit ", only 'zh' or 'en' supported")), st)
  else (Ok tt, {| base_dir := base_dir st; language := lang; cache := ∅ |}).


Inductive config_type := Structured | Raw.

Definition missing (agent_name what : str) : exn :=
  ValueError (lit "[" ++ agent_name ++ lit "] " ++ what).

(** [if key not in v: raise ValueError(...)] *)
Definition require_key (key : str) (v : pyval) (e : exn) : res unit :=
  b ← py_in key v; if b : bool then Ok tt else Raise e.

Definition _validate_config (config : pyval) (agent_name : str)
  : res config_type :=
  _ ← require_key (lit "system") config
        (missing agent_name (lit "missing 'system' configuration section"));
  system_section ← py_getitem config (lit "system");
  if is_dict system_section then
    _ ← require_key (lit "user") config
          (missing agent_name (lit "missing 'user' configuration section"));
    _ ← require_key (lit "role") system_section
          (missing agent_name
             (lit "'system' configuration section missing 'role' field"));
    _ ← require_key (lit "task") system_section
          (missing agent_name
             (lit "'system' configuration section missing 'task' field"));
    user_config ← py_getitem config (lit "user");
    _ ← require_key (lit "template") user_config
          (missing agent_name
             (lit "'user' configuration section missing 'template' field"));
    Ok Structured
  else if negb (is_str system_section) then
    Raise (missing agent_name (lit "'system' must be a string or object"))
  else
    _ ← require_key (lit "user_template") config
          (missing agent_name (lit "raw format missing 'user_template'"));
    user_template ← py_getitem config (lit "user_template");
    if negb (is_str user_template) then
      Raise (missing agent_name (lit "'user_template' must be a string"))
    else Ok Raw.

(** One optional bulleted section of a structured template:
    when [system_config.get(key)] is truthy, an empty line, the header and
    one line [- item] for each item. *)
Definition bullet_section (rt : runtime) (system_config : pyval)
    (key header : str) : res (list pyval) :=
  v ← py_get system_config key PNone;
  if py_truthy rt v then
    section ← py_getitem system_config key;
    items ← py_iter section;
    Ok ([PStr []; PStr header] ++
        List.map (fun x => PStr (lit "- " ++ py_str rt x)) items)
  else Ok [].

Definition build_structured (rt : runtime) (config : pyval) : res pyval :=
  system_config ← py_getitem config (lit "system");
  user_config ← py_getitem config (lit "user");
  role ← py_getitem system_config (lit "role");
  task ← py_getitem system_config (lit "task");
  let head := [PStr (lit "You are " ++ py_str rt role ++ lit "."); PStr []; task] in
  requirements ← bullet_section rt system_config (lit "requirements") (lit "Requirements:");
  constraints ← bullet_section rt system_config (lit "constraints") (lit "Constraints:");
  fmt ← py_get system_config (lit "output_format") PNone;
  let format_part :=
    if py_truthy rt fmt then [PStr []; PStr (lit "Output Format:"); fmt] else [] in
  let output_format := if py_truthy rt fmt then fmt else PStr [] in
  notes ← bullet_section rt system_config (lit "notes") (lit "Notes:");
  system_prompt ← py_join nl (head ++ requirements ++ constraints ++ format_part ++ notes);
  user_template ← py_getitem user_config (lit "template");
  Ok (PDict [(lit "system", PStr system_prompt);
             (lit "user_template", user_template);
             (lit "output_format", output_format)]).

Definition build_raw (config : pyval) : res pyval :=
  system ← py_getitem config (lit "system");
  user_template ← py_get config (lit "user_template") (PStr []);
  let prompts := [(lit "system", system); (lit "user_template", user_template)] in
  match config with
  | PDict items =>
      Ok (PDict
            (fold_left
               (fun p kv =>
                  if str_eqb (fst kv) (lit "system") ||
                     str_eqb (fst kv) (lit "user_template")
                  then p
                  else dict_set p (fst kv) (snd kv))
               items prompts))
  | _ => Raise AttributeError
  end.

Definition _build_prompts (rt : runtime) (config : pyval) (ct : config_type)
  : res pyval :=
  match ct with
  | Structured => build_structured rt config
  | Raw => build_raw config
  end.

(** [f"{agent_name}_{version}_{self.language}"] *)
Definition cache_key (agent_name version lang : str) : str :=
  agent_name ++ lit "_" ++ version ++ lit "_" ++ lang.

Definition yaml_name (agent_name : str) : str := agent_name ++ lit ".yaml".

Definition lang_dir (st : loader) : str := path_join (base_dir st) (language st).

(** Lines 72-92 of [load]: the file a template is read from. *)
Definition resolve_prompt_file (fs : filesystem) (st : loader)
    (agent_name : str) : res str :=
  let prompt_file := path_join (lang_dir st) (yaml_name agent_name) in
  if fs_exists fs prompt_file then Ok prompt_file
  else if fs_exists fs (lang_dir st) then
    match fs_rglob fs (lang_dir st) (yaml_name agent_name) with
    | found :: _ => Ok found
    | [] =>
        Raise (FileNotFoundError
                 (lit "Prompt config file not found: " ++ yaml_name agent_name ++ nl ++
                  lit "Please ensure file exists in " ++ lang_dir st ++
                  lit "/ or its subdirectories"))
    end
  else
    Raise (FileNotFoundError
             (lit "Prompt config directory not found: " ++ lang_dir st ++ nl ++
              lit "Please ensure directory exists")).

(** Lines 94-105 of [load]: read, validate and build. *)
Definition read_prompts (fs : filesystem) (rt : runtime)
    (prompt_file agent_name : str) : res pyval :=
  match fs_yaml fs prompt_file with
  | inl err =>
      Raise (ValueError (lit "Failed to parse YAML file (" ++ prompt_file ++
                         lit "): " ++ err))
  | inr config =>
      ct ← _validate_config config agent_name;
      _build_prompts rt config ct
  end.

Definition load (fs : filesystem) (rt : runtime) (agent_name version : str)
    (st : loader) : res pyval * loader :=
  let key := cache_key agent_name version (language st) in
  match cache st !! key with
  | Some prompts => (Ok prompts, st)
  | None =>
      match resolve_prompt_file fs st agent_name with
      | Raise e => (Raise e, st)
      | Ok prompt_file =>
          match read_prompts fs rt prompt_file agent_name with
          | Raise e => (Raise e, st)
          | Ok prompts =>
              (Ok prompts,
               {| base_dir := base_dir st; language := language st;
                  cache := <[key := prompts]> (cache st) |})
          end
      end
  end.

Definition reload (fs : filesystem) (rt : runtime) (agent_name version : str)
    (st : loader) : res pyval * loader :=
  let key := cache_key agent_name version (language st) in
  load fs rt agent_name version
    {| base_dir := base_dir st; language := language st;
       cache := delete key (cache st) |}.

Definition latest : str := lit "latest".

(** ** BaseAgent  (base_agent.py) *)

Inductive log_event :=
| LogDebug (msg : str)
| LogWarning (msg : str)
| LogError (msg : str).

(** The prompt fields [__init__] sets (lines 70-106).  [prompts] is
    [None] or the loaded definition. *)
Record agent_prompts := {
  prompts : option pyval;
  prompt_loader : option loader;
  init_log : list log_event
}.

Definition exn_text (e : exn) : str :=
  match e with
  | ValueError m => m
  | FileNotFoundError m => m
  | KeyError k => k
  | _ => []
  end.

(** [prompts_dir] is the [prompts] directory next to the module and
    [lang_code] is what [parse_language] made of the configured language. *)
Definition init_prompts (fs : filesystem) (rt : runtime)
    (prompts_dir lang_code agent_name : str) (use_prompt_loader : bool)
  : agent_prompts :=
  if use_prompt_loader then
    let l := new_loader prompts_dir lang_code in
    match load fs rt agent_name latest l with
    | (Ok p, l') =>
        {| prompts := Some p; prompt_loader := Some l';
           init_log := [LogDebug (lit "[" ++ agent_name ++
                                  lit "] Prompt configuration loaded from YAML")] |}
    | (Raise (FileNotFoundError m), l') =>
        {| prompts := None; prompt_loader := Some l';
           init_log := [LogWarning (lit "[" ++ agent_name ++
                          lit "] Prompt config file not found: " ++ m ++
                          lit ", will use hardcoded Prompt")] |}
    | (Raise e, l') =>
        {| prompts := None; prompt_loader := Some l';
           init_log := [LogError (lit "[" ++ agent_name ++
                          lit "] Failed to load Prompt configuration: " ++ exn_text e ++
                          lit ", will use hardcoded Prompt")] |}
    end
  else {| prompts := None; prompt_loader := None; init_log := [] |}.

Definition has_prompts (a : agent_prompts) : bool :=
  match prompts a with Some _ => true | None => false end.

(** [get_prompt(prompt_type)]; [None] when nothing was loaded. *)
Definition get_prompt (rt : runtime) (a : agent_prompts) (prompt_type : str)
  : res (option pyval) :=
  match prompts a with
  | Some p =>
      if py_truthy rt p then
        b ← py_in prompt_type p;
        if b : bool then v ← py_getitem p prompt_type; Ok (Some v) else Ok None
      else Ok None
  | None => Ok None
  end.

(** *** [call_llm]

    The completion capability ([openai_complete_if_cache]), the process
    environment and the logger are outside the repository.  A call is
    described by the events it causes, in order. *)

Record llm_request := {
  rq_model : str;
  rq_prompt : str;
  rq_system_prompt : str;
  rq_api_key : str;
  rq_base_url : str;
  rq_temperature : pyval;
  rq_response_format : option pyval;
  rq_max_tokens : option Z;
  rq_token_tracker : bool
}.

Inductive tracker_kind := BasicTracker | AdvancedTracker.

Record base_agent := {
  ba_agent_name : str;
  ba_api_key : str;
  ba_base_url : str;
  ba_temperature : pyval;          (* [_agent_params["temperature"]] *)
  ba_max_tokens : Z;               (* [_agent_params["max_tokens"]] *)
  ba_token_tracker : option tracker_kind;
  ba_log_llm_input : bool;         (* [hasattr(self.logger, "log_llm_input")] *)
  ba_log_llm_output : bool
}.

Inductive event :=
| EvLogInput (stage system_prompt user_prompt model : str)
| EvComplete (rq : llm_request)
| EvUsageReported (stage model : str) (token_counts : pyval)
| EvUsageFromText (stage model system_prompt user_prompt response : str)
| EvUsageEstimated (stage model : str) (prompt_words completion_words : nat)
| EvLogOutput (stage response : str).

(** [len(s.split())]: the number of maximal runs without whitespace *)
Fixpoint count_words_from (in_word : bool) (s : str) : nat :=
  match s with
  | [] => 0%nat
  | c :: s' =>
      if isspace c then count_words_from false s'
      else if in_word then count_words_from true s'
      else S (count_words_from true s')
  end.
Definition count_words (s : str) : nat := count_words_from false s.

Definition get_model (getenv : str -> option str) (a : base_agent) : res str :=
  match getenv (lit "LLM_MODEL") with
  | Some (c :: m) => Ok (c :: m)
  | _ =>
      Raise (ValueError
               (lit "Error: Environment variable LLM_MODEL is not set" ++ nl ++
                lit "Please configure LLM_MODEL in your .env file, for example:" ++ nl ++
                lit "LLM_MODEL=gpt-4o-mini" ++ nl ++
                lit "Agent: " ++ ba_agent_name a))
  end.

Definition or_str (a : option str) : option str :=
  match a with
  | Some (c :: s) => Some (c :: s)
  | _ => None
  end.

(** [call_llm(user_prompt, system_prompt, response_format, temperature,
    model, stage)].  [complete] answers a request with the response text
    and the token counts it reported to the tracker, if any, or raises.
    Without a truthy report the usage is estimated; the basic estimate
    scales the word counts by 1.3 in floating point, which the event
    leaves to its reader. *)
Definition call_llm
    (rt : runtime)
    (getenv : str -> option str)
    (complete : llm_request -> res (str * option pyval))
    (a : base_agent)
    (user_prompt system_prompt : str)
    (response_format : option pyval) (temperature : option pyval)
    (model : option str) (stage : option str)
  : res str * list event :=
  match (match or_str model with Some m => Ok m | None => get_model getenv a end) with
  | Raise e => (Raise e, [])
  | Ok model =>
      let temperature :=
        match temperature with Some t => t | None => ba_temperature a end in
      let max_tokens := ba_max_tokens a in
      let rq :=
        {| rq_model := model; rq_prompt := user_prompt;
           rq_system_prompt := system_prompt;
           rq_api_key := ba_api_key a; rq_base_url := ba_base_url a;
           rq_temperature := temperature;
           rq_response_format :=
             match response_format with
             | Some (PDict (kv :: d)) => Some (PDict (kv :: d))
             | _ => None
             end;
           rq_max_tokens := if (max_tokens =? 0)%Z then None else Some max_tokens;
           rq_token_tracker :=
             match ba_token_tracker a with Some _ => true | None => false end |} in
      let stage_label :=
        match or_str stage with Some s => s | None => ba_agent_name a end in
      let log_in :=
        if ba_log_llm_input a
        then [EvLogInput stage_label system_prompt user_prompt model] else [] in
      match complete rq with
      | Raise e => (Raise e, log_in ++ [EvComplete rq])
      | Ok (response, reported) =>
          let estimate kind :=
            match kind with
            | AdvancedTracker =>
                [EvUsageFromText stage_label model system_prompt user_prompt response]
            | BasicTracker =>
                [EvUsageEstimated stage_label model
                   (count_words system_prompt + count_words user_prompt)
                   (count_words response)]
            end in
          let usage :=
            match ba_token_tracker a with
            | None => []
            | Some kind =>
                match reported with
                | Some counts =>
                    EvUsageReported stage_label model counts ::
                    (if py_truthy rt counts then [] else estimate kind)
                | None => estimate kind
                end
            end in
          let log_out :=
            if ba_log_llm_output a then [EvLogOutput stage_label response] else [] in
          (Ok response, log_in ++ [EvComplete rq] ++ usage ++ log_out)
      end
  end.

Definition is_completion (e : event) : bool :=
  match e with EvComplete _ => true | _ => false end.

(** How many times the completion capability was invoked. *)
Definition completions (evs : list event) : nat :=
  length (List.filter is_completion evs).

(** ** MaterialOrganizerAgent  (material_organizer_agent.py) *)

Record kpoint := { knowledge_point : str; description : str }.

(** [org_prompts] is [self._prompts]; [org_call_llm n user system] is the
    outcome of the [n]-th [call_llm] of a run. *)
Record organizer := {
  org_prompts : pyval;
  org_call_llm : nat -> str -> pyval -> res str
}.

Definition nonempty (s : str) : bool :=
  match s with [] => false | _ :: _ => true end.

(** [try: body except json.JSONDecodeError: handler] *)
Definition except_decode {A} (body handler : res A) : res A :=
  match body with
  | Raise JSONDecodeError => handler
  | _ => body
  end.

(** [try: body except Exception: handler] *)
Definition except_any {A} (body handler : res A) : res A :=
  match body with
  | Raise _ => handler
  | _ => body
  end.

(** The body of both validation loops for one [point]; [floor] is the
    least length of a description (10 in [process], none in the fallback). *)
Definition validate_point (rt : runtime) (floor : nat) (point : pyval)
  : res (option kpoint) :=
  has_kp ← py_in (lit "knowledge_point") point;
  if has_kp : bool then
    has_desc ← py_in (lit "description") point;
    if has_desc : bool then
      kpv ← py_getitem point (lit "knowledge_point");
      let kp := strip (py_str rt kpv) in
      dv ← py_getitem point (lit "description");
      let desc := strip (py_str rt dv) in
      if nonempty kp && nonempty desc && (floor <=? length desc)%nat
      then Ok (Some {| knowledge_point := kp; description := desc |})
      else Ok None
    else Ok None
  else Ok None.

Fixpoint validate_points (rt : runtime) (floor : nat) (points : list pyval)
  : res (list kpoint) :=
  match points with
  | [] => Ok []
  | point :: rest =>
      r ← validate_point rt floor point;
      validated ← validate_points rt floor rest;
      Ok (match r with Some k => k :: validated | None => validated end)
  end.

(** [v[:n]] *)
Definition py_prefix (n : nat) (v : pyval) : res pyval :=
  match v with
  | PStr s => Ok (PStr (take n s))
  | PList l => Ok (PList (take n l))
  | _ => Raise TypeError
  end.

Definition str_of_nat (n : nat) : str := str_of_int (Z.of_nat n).

(** [user_template.format] with keyword arguments *)
Definition format_template (rt : runtime) (template : pyval)
    (fields : list (str * str)) : res str :=
  match template with
  | PStr t => rt_format rt t fields
  | _ => Raise AttributeError
  end.

Fixpoint fallback_materials (rt : runtime) (i : nat) (records : list pyval)
  : res str :=
  match records with
  | [] => Ok []
  | record :: rest =>
      title ← py_get record (lit "title") (PStr []);
      query ← py_get record (lit "user_query") (PStr []);
      query100 ← py_prefix 100 query;
      more ← fallback_materials rt (S i) rest;
      Ok (nl ++ lit "Record " ++ str_of_nat i ++ lit ": " ++ py_str rt title ++
          lit " - " ++ py_str rt query100 ++ more)
  end.

Definition synthetic_point (n : nat) : kpoint :=
  {| knowledge_point := lit "Comprehensive Knowledge Point";
     description :=
       lit "Comprehensive knowledge content based on " ++ str_of_nat n ++
       lit " records, containing multiple research directions and concepts." |}.

Definition synthetic_topic (n : nat) : kpoint :=
  {| knowledge_point := lit "Comprehensive Research Topic";
     description :=
       lit "Based on the selected " ++ str_of_nat n ++
       lit " notebook records, multiple research directions and knowledge points can be explored." |}.

Definition _fallback_extract (rt : runtime) (ag : organizer) (call : nat)
    (records : list pyval) (user_thoughts : option str) : res (list kpoint) :=
  materials_text ← fallback_materials rt 1 records;
  system_prompt ← py_get (org_prompts ag) (lit "fallback_system") (PStr []);
  user_template ← py_get (org_prompts ag) (lit "fallback_user_template") (PStr []);
  let user_thoughts_str :=
    match or_str user_thoughts with
    | Some t => lit "User thoughts: " ++ t
    | None => []
    end in
  user_prompt ← format_template rt user_template
                  [(lit "materials_text", materials_text);
                   (lit "user_thoughts", user_thoughts_str)];
  except_any
    (response ← org_call_llm ag call user_prompt system_prompt;
     result ← json_loads response;
     knowledge_points ← py_get result (lit "knowledge_points") (PList []);
     points ← py_iter knowledge_points;
     validated_points ← validate_points rt 0 points;
     Ok (match validated_points with
         | [] => [synthetic_point (length records)]
         | _ :: _ => validated_points
         end))
    (Ok [synthetic_topic (length records)]).

Fixpoint materials (rt : runtime) (i : nat) (records : list pyval) : res str :=
  match records with
  | [] => Ok []
  | record :: rest =>
      type ← py_get record (lit "type") (PStr []);
      title ← py_get record (lit "title") (PStr []);
      user_query ← py_get record (lit "user_query") (PStr []);
      output ← py_get record (lit "output") (PStr []);
      more ← materials rt (S i) rest;
      Ok (nl ++ nl ++ lit "=== Record " ++ str_of_nat i ++ lit " ===" ++ nl ++
          lit "Type: " ++ py_str rt type ++ nl ++
          lit "Title: " ++ py_str rt title ++ nl ++
          lit "User Query: " ++ py_str rt user_query ++ nl ++
          lit "System Response: " ++ py_str rt output ++ nl ++ more)
  end.

Definition process (rt : runtime) (ag : organizer)
    (records : list pyval) (user_thoughts : option str) : res (list kpoint) :=
  materials_text ← materials rt 1 records;
  let user_thoughts_text :=
    match or_str user_thoughts with
    | Some t =>
        if nonempty (strip t)
        then nl ++ nl ++ lit "User Additional Thoughts:" ++ nl ++ t else []
    | None => []
    end in
  system_prompt ← py_get (org_prompts ag) (lit "system") (PStr []);
  user_template ← py_get (org_prompts ag) (lit "user_template") (PStr []);
  user_prompt ← format_template rt user_template
                  [(lit "materials_text", materials_text);
                   (lit "user_thoughts_text", user_thoughts_text)];
  response ← org_call_llm ag 0 user_prompt system_prompt;
  except_decode
    (result ← json_loads response;
     knowledge_points ← py_get result (lit "knowledge_points") (PList []);
     _ ← py_len knowledge_points;
     points ← py_iter knowledge_points;
     validated_points ← validate_points rt 10 points;
     match validated_points, records with
     | [], _ :: _ => _fallback_extract rt ag 1 records user_thoughts
     | _, _ => Ok validated_points
     end)
    (_fallback_extract rt ag 1 records user_thoughts).

(** * Vocabulary of the statements *)

(** A scan within fuel that leaves less than [n] characters. *)
Definition scan_ok {A} (c : scan A) (n : nat) : Prop :=
  match c with
  | Scanned _ rest => (length rest < n)%nat
  | Malformed => True
  | NoFuel => False
  end.

(** The four candidates of the extraction, in the words of the
    specification: the inner content of the first fenced code block, the
    whole text, the outermost object span and the outermost array span. *)
Definition fenced_block (text : str) : option str :=
  option_map (fun m => strip (group1 text m)) (re_search code_block_pattern text).
Definition object_span (text : str) : option str :=
  option_map (group0 text) (re_search json_obj_pattern text).
Definition array_span (text : str) : option str :=
  option_map (group0 text) (re_search json_arr_pattern text).

(** A stage succeeds when its candidate exists and parses. *)
Definition parsed (candidate : option str) : option pyval :=
  match candidate with
  | Some s =>
      match json_loads s with
      | Ok v => Some v
      | Raise _ => None
      end
  | None => None
  end.

Definition stages (text : str) : list (option pyval) :=
  [parsed (fenced_block text); parsed (Some text);
   parsed (object_span text); parsed (array_span text)].

(** The first success, [None] when there is none. *)
Fixpoint first_success (l : list (option pyval)) : pyval :=
  match l with
  | Some v :: _ => v
  | None :: l' => first_success l'
  | [] => PNone
  end.



(** ** Valid JSON values

    Text made of Unicode scalar values (no surrogate code points), float
    literals of the JSON number grammar, and distinct keys in every
    object. *)



Fixpoint distinct_keys (d : list (str * pyval)) : bool :=
  match d with
  | [] => true
  | (k, _) :: d' => negb (dict_has d' k) && distinct_keys d'
  end.














(** ** Loader vocabulary *)

(** The part of [load] after a cache miss: resolve, read, store. *)
Definition read_and_store (fs : filesystem) (rt : runtime)
    (agent_name version : str) (st : loader) : res pyval * loader :=
  match resolve_prompt_file fs st agent_name with
  | Raise e => (Raise e, st)
  | Ok prompt_file =>
      match read_prompts fs rt prompt_file agent_name with
      | Raise e => (Raise e, st)
      | Ok p =>
          (Ok p,
           {| base_dir := base_dir st; language := language st;
              cache := <[cache_key agent_name version (language st) := p]> (cache st) |})
      end
  end.

(** The same for a file that is already resolved. *)
Definition read_from (fs : filesystem) (rt : runtime)
    (prompt_file agent_name version : str) (st : loader) : res pyval * loader :=
  match read_prompts fs rt prompt_file agent_name with
  | Raise e => (Raise e, st)
  | Ok p =>
      (Ok p,
       {| base_dir := base_dir st; language := language st;
          cache := <[cache_key agent_name version (language st) := p]> (cache st) |})
  end.

Definition evict (key : str) (st : loader) : loader :=
  {| base_dir := base_dir st; language := language st;
     cache := delete key (cache st) |}.





(** A runtime and disks for the examples. *)
Definition plain_runtime : runtime :=
  {| rt_repr := fun _ => lit "?";
     rt_float_nonzero := fun _ => true;
     rt_format := fun template _ => Ok template |}.

Fixpoint file_lookup (files : list (str * pyval)) (path : str) : option pyval :=
  match files with
  | [] => None
  | (p, v) :: files' => if str_eqb p path then Some v else file_lookup files' path
  end.

Definition endswith (sfx s : str) : bool := startswith (rev sfx) (rev s).

(** A disk that holds the given YAML documents and directories. *)
Definition disk (files : list (str * pyval)) (dirs : list str) : filesystem :=
  {| fs_exists := fun p =>
       match file_lookup files p with
       | Some _ => true
       | None => existsb (str_eqb p) dirs
       end;
     fs_rglob := fun dir name =>
       List.map fst
         (List.filter
            (fun f => startswith (dir ++ lit "/") (fst f) &&
                      endswith (lit "/" ++ name) (fst f)) files);
     fs_yaml := fun p =>
       match file_lookup files p with
       | Some v => inr v
       | None => inl (lit "No such file or directory")
       end |}.

(** [system: ''] with [user_template: ''], a raw template. *)
Definition empty_raw_template : pyval :=
  PDict [(lit "system", PStr []); (lit "user_template", PStr [])].

(** A structured template whose [user.template] is empty. *)
Definition empty_structured_template : pyval :=
  PDict [(lit "system", PDict [(lit "role", PStr (lit "a tutor"));
                               (lit "task", PStr (lit "Explain."))]);
         (lit "user", PDict [(lit "template", PStr [])])].

(** Two states of a disk: a raw template [note] in a subdirectory and a
    structured template [plan]; later, [note] rewritten and [plan] gone. *)
Definition disk_before : filesystem :=
  disk [(lit "prompts/zh/solve/note.yaml", empty_raw_template);
        (lit "prompts/zh/plan.yaml", empty_structured_template)]
       [lit "prompts/zh"; lit "prompts/zh/solve"].
Definition disk_after : filesystem :=
  disk [(lit "prompts/zh/solve/note.yaml", empty_structured_template)]
       [lit "prompts/zh"; lit "prompts/zh/solve"].

Definition fresh_loader : loader := new_loader (lit "prompts") (lit "zh").

(** The loader after [note] was loaded from the first disk, and calls made
    once the disk has changed. *)
Definition note_loaded : loader :=
  snd (load disk_before plain_runtime (lit "note") latest fresh_loader).



(** ** Agents for the examples *)

Definition sample_agent : base_agent :=
  {| ba_agent_name := lit "solve_agent";
     ba_api_key := lit "key";
     ba_base_url := lit "https://api.example";
     ba_temperature := PFloat (lit "0.3");
     ba_max_tokens := 4096;
     ba_token_tracker := Some BasicTracker;
     ba_log_llm_input := true;
     ba_log_llm_output := true |}.

Definition empty_env : str -> option str := fun _ => None.
Definition model_env : str -> option str :=
  fun name => if str_eqb name (lit "LLM_MODEL") then Some (lit "gpt-4o-mini") else None.

(** A completion capability that answers every request with [ok]. *)
Definition echo_complete : llm_request -> res (str * option pyval) :=
  fun _ => Ok (lit "ok", None).

(** ** Organizers for the examples *)

(** The model answers [{"knowledge_points": null}] to every call. *)
Definition null_points_organizer : organizer :=
  {| org_prompts := PDict [];
     org_call_llm := fun _ _ _ => Ok (qlit "{'knowledge_points': null}") |}.

(** The model answers with a JSON array. *)
Definition array_organizer : organizer :=
  {| org_prompts := PDict [];
     org_call_llm := fun _ _ _ => Ok (lit "[]") |}.

(** The first answer is no JSON; the second has a one-letter description. *)
Definition short_fallback_organizer : organizer :=
  {| org_prompts := PDict [];
     org_call_llm := fun n _ _ =>
       match n with
       | O => Ok (lit "Sorry, I cannot answer in JSON.")
       | S _ =>
           Ok (qlit "{'knowledge_points': [{'knowledge_point': 'A', 'description': 'B'}]}")
       end |}.

(** The answer of the end-to-end scenario of the specification. *)
Definition diffusion_organizer : organizer :=
  {| org_prompts := PDict [];
     org_call_llm := fun _ _ _ =>
       Ok (qlit "{'knowledge_points':[{'knowledge_point':'Diffusion Models','description':'Explains forward/reverse noising process in generative modeling.'}]}") |}.

Definition one_record : list pyval :=
  [PDict [(lit "title", PStr (lit "Diffusion")); (lit "user_query", PStr (lit "What is it?"))]].

(** Both fields non-empty. *)
Definition filled (k : kpoint) : Prop :=
  nonempty (knowledge_point k) = true /\ nonempty (description k) = true.

(** * The other functions of the modules *)

(** ** [clean_json_string]  (json_utils.py) *)

(** [re.sub(pattern, repl, s)] for a pattern that is one character class:
    every character of the class is replaced by [repl]. *)
Definition re_sub_class (cls : N -> bool) (repl s : str) : str :=
  flat_map (fun c => if cls c then repl else [c]) s.

(** The class [[\x00-\x1f\x7f-\x9f]] *)
Definition control_char (c : N) : bool :=
  (c <=? 31) || ((127 <=? c) && (c <=? 159)).

Definition clean_json_string (json_str : str) : str :=
  re_sub_class control_char [] json_str.

(** ** [PromptLoader.list_available_prompts] and [get_prompt_loader] *)

(** [a <= b] on [str]: the order of the code points, a prefix first. *)
Fixpoint str_leb (a b : str) : bool :=
  match a, b with
  | [], _ => true
  | _ :: _, [] => false
  | x :: a', y :: b' =>
      if x <? y then true else if y <? x then false else str_leb a' b'
  end.

Fixpoint insert_sorted (x : str) (l : list str) : list str :=
  match l with
  | [] => [x]
  | y :: l' => if str_leb x y then x :: l else y :: insert_sorted x l'
  end.

(** [sorted(names)] for a list of [str] *)
Definition py_sorted (names : list str) : list str :=
  fold_right insert_sorted [] names.

(** [s.rfind(c)] *)
Fixpoint rfind (c : N) (s : str) : option nat :=
  match s with
  | [] => None
  | x :: s' =>
      match rfind c s' with
      | Some i => Some (S i)
      | None => if x =? c then Some 0%nat else None
      end
  end.

Fixpoint before_slash (s : str) : str :=
  match s with
  | [] => []
  | c :: s' => if c =? ch "/" then [] else c :: before_slash s'
  end.

(** [path.name]: the final component *)
Definition path_name (p : str) : str := rev (before_slash (rev p)).

(** [path.stem]: the final component without its last suffix; a leading
    or a trailing dot starts no suffix. *)
Definition path_stem (p : str) : str :=
  let name := path_name p in
  match rfind (ch ".") name with
  | Some i =>
      if (0 <? i)%nat && (i <? length name - 1)%nat then take i name else name
  | None => name
  end.

(** [glob dir pattern] is [list(dir.glob(pattern))]. *)
Definition list_available_prompts (fs : filesystem) (glob : str -> str -> list str)
    (lang : option str) (st : loader) : list str :=
  let lang := match or_str lang with Some l => l | None => language st end in
  let prompts_dir := path_join (base_dir st) lang in
  if negb (fs_exists fs prompts_dir) then []
  else
    let yaml_files := glob prompts_dir (lit "*.yaml") in
    py_sorted (List.map path_stem yaml_files).

(** [get_prompt_loader(language)].  The module keeps one loader in
    [_global_loader], [None] at first; the function returns that very
    object, so the result is read from the cell.  [default_dir] is the
    directory [PromptLoader.__init__] takes when no [base_dir] is given. *)
Definition get_prompt_loader (default_dir : str) (lang : option str)
    (_global_loader : option loader) : res unit * option loader :=
  match _global_loader with
  | None =>
      let lang := match or_str lang with Some l => l | None => lit "zh" end in
      (Ok tt, Some (new_loader default_dir lang))
  | Some st =>
      match lang with
      | Some l =>
          match set_language l st with
          | (Ok _, st') => (Ok tt, Some st')
          | (Raise e, st') => (Raise e, Some st')
          end
      | None => (Ok tt, Some st)
      end
  end.

(** ** BaseAgent: the settings [__init__] reads and [get_max_retries] *)

(** [config.get("agents", {}).get(agent_name, {})] and
    [config.get("llm", {})], lines 59 and 62 *)
Definition agent_settings (config : pyval) (agent_name : str)
  : res (pyval * pyval) :=
  agents ← py_get config (lit "agents") (PDict []);
  agent_config ← py_get agents agent_name (PDict []);
  llm_config ← py_get config (lit "llm") (PDict []);
  Ok (agent_config, llm_config).

(** [self.agent_config.get("max_retries",
                           self.llm_config.get("max_retries", 3))]:
    the default is computed before the outer [get] is called. *)
Definition get_max_retries (agent_config llm_config : pyval) : res pyval :=
  default ← py_get llm_config (lit "max_retries") (PInt 3);
  py_get agent_config (lit "max_retries") default.

(** The records of token usage among the events of a call. *)
Definition is_usage (e : event) : bool :=
  match e with
  | EvUsageReported _ _ _ | EvUsageFromText _ _ _ _ _ | EvUsageEstimated _ _ _ _ => true
  | _ => false
  end.

Definition usage_records (evs : list event) : nat :=
  length (List.filter is_usage evs).

(** ** MaterialOrganizerAgent: [_load_prompts] *)

(** [Path(__file__).parent / "prompts" / language / "material_organizer.yaml"];
    [module_dir] is the directory of the module. *)
Definition organizer_prompt_file (module_dir lang : str) : str :=
  path_join (path_join (path_join module_dir (lit "prompts")) lang)
    (lit "material_organizer.yaml").

(** [_load_prompts(language)]: [inl] is an exception of [open] or
    [yaml.safe_load], which the function lets through. *)
Definition _load_prompts (fs : filesystem) (module_dir lang : str) : str + pyval :=
  let prompt_file := organizer_prompt_file module_dir lang in
  if fs_exists fs prompt_file then fs_yaml fs prompt_file
  else
    let fallback_file := organizer_prompt_file module_dir (lit "en") in
    if fs_exists fs fallback_file then fs_yaml fs fallback_file
    else inr (PDict []).

(** ** BaseIdeaAgent.call_llm  (base_idea_agent.py) *)

Record idea_agent := {
  ia_model : str;
  ia_api_key : str;
  ia_base_url : str;
  ia_agent_params : pyval          (* [get_agent_params("ideagen")] *)
}.

Record idea_request := {
  iq_model : str;
  iq_prompt : str;
  iq_system_prompt : str;
  iq_api_key : str;
  iq_base_url : str;
  iq_temperature : pyval;
  iq_max_tokens : pyval;
  iq_response_format : option pyval
}.

(** What a call does, in order: the completion request and the entry
    added to the shared statistics. *)
Inductive idea_event :=
| IdeaComplete (rq : idea_request)
| IdeaAddCall (model system_prompt user_prompt response : str).

Definition or_config (explicit : pyval) (params : pyval) (key : str) : res pyval :=
  match explicit with
  | PNone => py_getitem params key
  | _ => Ok explicit
  end.

(** [call_llm(user_prompt, system_prompt, response_format, temperature,
    max_tokens)]; [PNone] is the default [None] of an argument. *)
Definition idea_call_llm (rt : runtime)
    (complete : idea_request -> res str) (a : idea_agent)
    (user_prompt system_prompt : str)
    (response_format temperature max_tokens : pyval)
  : res str * list idea_event :=
  match
    (temperature ← or_config temperature (ia_agent_params a) (lit "temperature");
     max_tokens ← or_config max_tokens (ia_agent_params a) (lit "max_tokens");
     Ok (temperature, max_tokens))
  with
  | Raise e => (Raise e, [])
  | Ok (temperature, max_tokens) =>
      let rq :=
        {| iq_model := ia_model a; iq_prompt := user_prompt;
           iq_system_prompt := system_prompt;
           iq_api_key := ia_api_key a; iq_base_url := ia_base_url a;
           iq_temperature := temperature; iq_max_tokens := max_tokens;
           iq_response_format :=
             if py_truthy rt response_format then Some response_format else None |} in
      match complete rq with
      | Raise e => (Raise e, [IdeaComplete rq])
      | Ok response =>
          (Ok response,
           [IdeaComplete rq;
            IdeaAddCall (ia_model a) system_prompt user_prompt response])
      end
  end.

(** ** Vocabulary for the other functions *)

(** No character of the class that [clean_json_string] removes. *)
Definition no_control (s : str) : bool :=
  forallb (fun c => negb (control_char c)) s.




(** [names] in ascending order. *)
Fixpoint ascending (names : list str) : bool :=
  match names with
  | x :: (y :: _) as rest => str_leb x y && ascending rest
  | _ => true
  end.

Definition no_slash (s : str) : bool := forallb (fun c => negb (c =? ch "/")) s.

(** A structured template whose [task] is the number 5, and one whose
    [user] section is a text that mentions [template]. *)
Definition numeric_task_template : pyval :=
  PDict [(lit "system", PDict [(lit "role", PStr (lit "a tutor"));
                               (lit "task", PInt 5)]);
         (lit "user", PDict [(lit "template", PStr (lit "{question}"))])].
Definition text_user_template : pyval :=
  PDict [(lit "system", PDict [(lit "role", PStr (lit "a tutor"));
                               (lit "task", PStr (lit "Explain."))]);
         (lit "user", PStr (lit "template: {question}"))].

(** A raw template with a further key. *)
Definition raw_template_with_notes : pyval :=
  PDict [(lit "notes", PList [PStr (lit "be brief")]);
         (lit "system", PStr (lit "You tutor."));
         (lit "user_template", PStr (lit "{question}"))].

(** A configuration whose [llm] entry is empty, which YAML reads as
    [None], and which sets the retries of one agent. *)
Definition config_without_llm : pyval :=
  PDict [(lit "agents",
          PDict [(lit "solve_agent", PDict [(lit "max_retries", PInt 5)])]);
         (lit "llm", PNone)].

Definition is_log_output (e : event) : bool :=
  match e with EvLogOutput _ _ => true | _ => false end.

(** A completion capability that reports empty token counts. *)
Definition empty_counts_complete : llm_request -> res (str * option pyval) :=
  fun _ => Ok (lit "ok", Some (PDict [])).

(** No whitespace at the start. *)
Definition starts_plain (s : str) : bool :=
  match s with
  | c :: _ => negb (isspace c)
  | [] => true
  end.

(** Both fields as [strip] leaves them. *)
Definition trimmed (k : kpoint) : Prop :=
  strip (knowledge_point k) = knowledge_point k /\
  strip (description k) = description k.

(** [f"User thoughts: {user_thoughts}" if user_thoughts else ""] *)
Definition thoughts_line (user_thoughts : option str) : str :=
  match or_str user_thoughts with
  | Some t => lit "User thoughts: " ++ t
  | None => []
  end.

(** An organizer whose model cannot be reached. *)
Definition offline_organizer : organizer :=
  {| org_prompts := PDict [];
     org_call_llm := fun _ _ _ => Raise (ValueError (lit "connection refused")) |}.

(** An idea agent and a completion capability for the examples. *)
Definition sample_idea_agent : idea_agent :=
  {| ia_model := lit "gpt-4o-mini"; ia_api_key := lit "key";
     ia_base_url := lit "https://api.example";
     ia_agent_params := PDict [(lit "max_tokens", PInt 4096)] |}.

Definition idea_echo : idea_request -> res str := fun _ => Ok (lit "ok").

(** A section of a structured template that can be listed: it is unset,
    falsy, or a list, a text or a mapping; and an output format that can
    be joined: unset, falsy or a text. *)
Definition listable (rt : runtime) (sd : list (str * pyval)) (key : str) : bool :=
  match dict_lookup sd key with
  | None => true
  | Some v =>
      negb (py_truthy rt v) ||
      match v with
      | PList _ | PStr _ | PDict _ => true
      | _ => false
      end
  end.

Definition format_ok (rt : runtime) (sd : list (str * pyval)) : bool :=
  match dict_lookup sd (lit "output_format") with
  | None => true
  | Some v => negb (py_truthy rt v) || is_str v
  end.

(** [sub] is a contiguous part of [text]. *)
Definition part_of (sub text : str) : Prop :=
  exists before after, text = before ++ sub ++ after.

(** * The decoder never runs out of fuel *)

Lemma skip_ws_length s : (length (skip_ws s) <= length s)%nat.
Proof.
  induction s as [|c s IH]; simpl; [lia|].
  destruct (json_ws c); simpl; lia.
Qed.

Lemma strip_prefix_app p s r : strip_prefix p s = Some r -> s = p ++ r.
Proof.
  revert s; induction p as [|a p IH]; intros s H; simpl in *.
  - congruence.
  - destruct s as [|b s]; [discriminate|].
    destruct (N.eqb_spec a b); [|discriminate].
    subst. f_equal. auto.
Qed.

Lemma strip_prefix_length p s r :
  strip_prefix p s = Some r -> length s = (length p + length r)%nat.
Proof. intros H. apply strip_prefix_app in H. subst. apply length_app. Qed.

Lemma scan_then_ok {A B} (c : scan A) (k : A -> str -> scan B) n :
  scan_ok c n ->
  (forall a r, (length r < n)%nat -> scan_ok (k a r) n) ->
  scan_ok (scan_then c k) n.
Proof. destruct c; simpl; auto. Qed.

Lemma scan_ok_weaken {A} (c : scan A) n m :
  scan_ok c n -> (n <= m)%nat -> scan_ok c m.
Proof. destruct c; simpl; auto; lia. Qed.

Lemma scan_cons_ok c r n : scan_ok r n -> scan_ok (scan_cons c r) n.
Proof. destruct r; simpl; auto. Qed.

Lemma scanstring_ok s : scan_ok (scanstring s) (length s).
Proof.
  remember (length s) as n eqn:Hn.
  revert s Hn. induction n as [n IH] using lt_wf_ind. intros s ->.
  assert (IH' : forall s', (length s' < length s)%nat ->
                           scan_ok (scanstring s') (length s')) by eauto.
  clear IH; rename IH' into IH.
  assert (REC : forall s', (length s' < length s)%nat ->
                           scan_ok (scan_cons 0 (scanstring s')) (length s)).
  { intros s' Hlt. apply scan_cons_ok.
    eapply scan_ok_weaken; [apply IH; exact Hlt | lia]. }
  assert (REC' : forall c s', (length s' < length s)%nat ->
                           scan_ok (scan_cons c (scanstring s')) (length s)).
  { intros c s' Hlt. apply scan_cons_ok.
    eapply scan_ok_weaken; [apply IH; exact Hlt | lia]. }
  clear REC IH.
  destruct s as [|c s1]; simpl; [exact I|].
  destruct (c =? dquote); [simpl; lia|].
  destruct (c =? ch "\").
  - destruct s1 as [|e s2]; [exact I|].
    destruct (e =? ch "u").
    + destruct s2 as [|h1 [|h2 [|h3 [|h4 s3]]]]; try exact I.
      destruct (hex4 h1 h2 h3 h4) as [uni|]; [|exact I].
      destruct (is_high_surrogate uni); [|apply REC'; simpl; lia].
      destruct s3 as [|b [|u s4]]; try (apply REC'; simpl; lia).
      destruct ((b =? ch "\") && (u =? ch "u")); [|apply REC'; simpl; lia].
      destruct s4 as [|g1 [|g2 [|g3 [|g4 s5]]]]; try (apply REC'; simpl; lia).
      destruct (hex4 g1 g2 g3 g4) as [uni2|]; [|exact I].
      destruct (is_low_surrogate uni2); apply REC'; simpl; lia.
    + destruct (simple_escape e); [apply REC'; simpl; lia|exact I].
  - destruct (c <? 32); [exact I|apply REC'; simpl; lia].
Qed.

Lemma span_digits_app s d r : span_digits s = (d, r) -> s = d ++ r.
Proof.
  revert d r; induction s as [|c s IH]; intros d r H; simpl in H.
  - inversion H; reflexivity.
  - destruct (is_digit c).
    + destruct (span_digits s) as [d' r'] eqn:E. inversion H; subst.
      simpl. f_equal. auto.
    + inversion H; reflexivity.
Qed.

Lemma integer_part_app s ip r :
  integer_part s = Some (ip, r) -> s = ip ++ r /\ ip <> [].
Proof.
  destruct s as [|d s]; simpl; [discriminate|].
  destruct (d =? ch "0").
  - intros H; inversion H; subst. split; [reflexivity|discriminate].
  - destruct (is_digit d); [|discriminate].
    destruct (span_digits s) as [ds r'] eqn:E.
    intros H; inversion H; subst. apply span_digits_app in E. subst.
    split; [reflexivity|discriminate].
Qed.

Lemma fraction_part_app s f r : fraction_part s = (f, r) -> s = f ++ r.
Proof.
  destruct s as [|p s]; simpl.
  - intros H; inversion H; reflexivity.
  - destruct (p =? ch ".").
    + destruct (span_digits s) as [[|d ds] r'] eqn:E;
        intros H; inversion H; subst; [reflexivity|].
      apply span_digits_app in E. subst. reflexivity.
    + intros H; inversion H; reflexivity.
Qed.

Lemma exponent_part_app s x r : exponent_part s = (x, r) -> s = x ++ r.
Proof.
  destruct s as [|e s]; simpl.
  - intros H; inversion H; reflexivity.
  - destruct ((e =? ch "e") || (e =? ch "E")).
    + assert (SG : forall sg s'',
                 s = sg ++ s'' ->
                 match span_digits s'' with
                 | ([], _) => ([], e :: s)
                 | (ed, r0) => (e :: sg ++ ed, r0)
                 end = (x, r) -> e :: s = x ++ r).
      { intros sg s'' -> H.
        destruct (span_digits s'') as [[|d ds] r'] eqn:E;
          inversion H; subst; [reflexivity|].
        apply span_digits_app in E. subst. simpl.
        rewrite <- app_assoc. reflexivity. }
      destruct s as [|g t]; [apply (SG [] []); reflexivity|].
      destruct ((g =? ch "-") || (g =? ch "+")).
      * apply (SG [g] t); reflexivity.
      * apply (SG [] (g :: t)); reflexivity.
    + intros H; inversion H; reflexivity.
Qed.

Lemma match_number_shorter s v r :
  match_number s = Some (v, r) -> (length r < length s)%nat.
Proof.
  unfold match_number.
  set (sg := match s with
             | c :: s' => if c =? ch "-" then (true, s') else (false, s)
             | [] => (false, s)
             end).
  assert (Hs : (length (snd sg) <= length s)%nat).
  { subst sg. destruct s as [|c s']; simpl; [lia|].
    destruct (c =? ch "-"); simpl; lia. }
  destruct sg as [neg s1]. simpl in Hs.
  destruct (integer_part s1) as [[ip r0]|] eqn:Ei; [|discriminate].
  apply integer_part_app in Ei. destruct Ei as [-> Hne].
  destruct (fraction_part r0) as [frac r1] eqn:Ef.
  apply fraction_part_app in Ef. subst r0.
  destruct (exponent_part r1) as [ex r2] eqn:Ee.
  apply exponent_part_app in Ee. subst r1.
  rewrite !length_app in Hs.
  assert (0 < length ip)%nat by (destruct ip; [congruence|simpl; lia]).
  destruct frac, ex; intros H'; inversion H'; subst; lia.
Qed.

Lemma scan_atom_ok s : scan_ok (scan_atom s) (length s).
Proof.
  unfold scan_atom.
  repeat match goal with
  | |- context [strip_prefix ?p s] =>
      let E := fresh "E" in
      destruct (strip_prefix p s) eqn:E;
      [apply strip_prefix_length in E; simpl in *; lia|clear E]
  | |- context [match_number s] =>
      let E := fresh "E" in
      destruct (match_number s) as [[? ?]|] eqn:E;
      [apply match_number_shorter in E; simpl; lia|clear E]
  end.
  exact I.
Qed.

Lemma scan_fuel_ok fuel :
  (forall s, (2 * length s + 1 <= fuel)%nat -> scan_ok (scan_once fuel s) (length s)) /\
  (forall s, (2 * length s + 1 <= fuel)%nat -> scan_ok (object_pairs fuel s) (length s)) /\
  (forall s, (2 * length s + 2 <= fuel)%nat -> scan_ok (array_values fuel s) (length s)).
Proof.
  induction fuel as [|fuel (IHs & IHo & IHa)].
  { repeat split; intros s H; lia. }
  repeat split; intros s Hf.
  - (* scan_once *)
    destruct s as [|c s1]; [exact I|].
    cbn [scan_once]. simpl length in *.
    destruct (c =? dquote).
    { apply scan_then_ok.
      - eapply scan_ok_weaken; [apply scanstring_ok|lia].
      - intros; simpl; lia. }
    destruct (c =? ch "{").
    { pose proof (skip_ws_length s1) as Hw.
      destruct (skip_ws s1) as [|c1 s2]; [exact I|]. simpl in Hw.
      destruct (c1 =? ch "}"); [simpl; lia|].
      destruct (c1 =? dquote); [|exact I].
      apply scan_then_ok.
      - eapply scan_ok_weaken; [apply IHo; lia|lia].
      - intros; simpl; lia. }
    destruct (c =? ch "[").
    { pose proof (skip_ws_length s1) as Hw.
      destruct (skip_ws s1) as [|c1 s2]; [exact I|]. simpl in Hw.
      destruct (c1 =? ch "]"); [simpl; lia|].
      apply scan_then_ok.
      - eapply scan_ok_weaken; [apply IHa; simpl; lia|simpl; lia].
      - intros; simpl; lia. }
    apply (scan_atom_ok (c :: s1)).
  - (* object_pairs *)
    cbn [object_pairs].
    apply scan_then_ok; [apply scanstring_ok|].
    intros key rest Hr.
    pose proof (skip_ws_length rest) as Hw.
    destruct (skip_ws rest) as [|c rest1]; [exact I|]. simpl in Hw.
    destruct (c =? ch ":"); [|exact I].
    pose proof (skip_ws_length rest1) as Hw1.
    apply scan_then_ok.
    { eapply scan_ok_weaken; [apply IHs; lia|lia]. }
    intros value rest2 Hr2.
    pose proof (skip_ws_length rest2) as Hw2.
    destruct (skip_ws rest2) as [|c2 rest3]; [exact I|]. simpl in Hw2.
    destruct (c2 =? ch "}"); [simpl; lia|].
    destruct (c2 =? ch ","); [|exact I].
    pose proof (skip_ws_length rest3) as Hw3.
    destruct (skip_ws rest3) as [|c3 rest4]; [exact I|]. simpl in Hw3.
    destruct (c3 =? dquote); [|exact I].
    apply scan_then_ok.
    { eapply scan_ok_weaken; [apply IHo; lia|lia]. }
    intros; simpl; lia.
  - (* array_values *)
    cbn [array_values].
    apply scan_then_ok; [apply IHs; lia|].
    intros value rest Hr.
    pose proof (skip_ws_length rest) as Hw.
    destruct (skip_ws rest) as [|c rest1]; [exact I|]. simpl in Hw.
    destruct (c =? ch "]"); [simpl; lia|].
    destruct (c =? ch ","); [|exact I].
    pose proof (skip_ws_length rest1) as Hw1.
    apply scan_then_ok.
    { eapply scan_ok_weaken; [apply IHa; lia|lia]. }
    intros; simpl; lia.
Qed.

(** With [decoder_fuel] the scanner ends with a value or a decode error. *)
Lemma scan_once_fuel s : scan_once (decoder_fuel s) s <> NoFuel.
Proof.
  destruct (scan_fuel_ok (decoder_fuel s)) as (H & _).
  specialize (H s). unfold decoder_fuel in *.
  intros E. rewrite E in H. apply H. lia.
Qed.

(** [json.loads] returns a value or raises [JSONDecodeError]. *)
Lemma json_loads_total s :
  (exists v, json_loads s = Ok v) \/ json_loads s = Raise JSONDecodeError.
Proof.
  unfold json_loads.
  destruct (startswith [65279] s); [right; reflexivity|].
  pose proof (scan_once_fuel (skip_ws s)) as F.
  destruct (scan_once _ _) as [v rest| |]; [|right; reflexivity|congruence].
  destruct (skip_ws rest); [left; eauto|right; reflexivity].
Qed.

(** * The extraction as a sequence of stages *)

Lemma try_return_loads s next :
  try_return (json_loads s) next =
  match parsed (Some s) with Some v => Ok v | None => next end.
Proof.
  unfold parsed. destruct (json_loads_total s) as [[v ->] | ->]; reflexivity.
Qed.

Lemma extract_array_stages text :
  extract_array text = Ok (first_success [parsed (array_span text)]).
Proof.
  unfold extract_array, array_span.
  destruct (re_search json_arr_pattern text) as [m|]; simpl; [|reflexivity].
  rewrite try_return_loads. unfold parsed.
  destruct (json_loads _); reflexivity.
Qed.

Lemma extract_object_stages text :
  extract_object text =
  Ok (first_success [parsed (object_span text); parsed (array_span text)]).
Proof.
  unfold extract_object, object_span.
  destruct (re_search json_obj_pattern text) as [m|]; simpl.
  - rewrite try_return_loads, extract_array_stages. unfold parsed.
    destruct (json_loads (group0 text m)); reflexivity.
  - apply extract_array_stages.
Qed.

Lemma extract_direct_stages text :
  extract_direct text = Ok (first_success (tail (stages text))).
Proof.
  unfold extract_direct. rewrite try_return_loads, extract_object_stages.
  cbn [stages tail first_success]. destruct (parsed (Some text)); reflexivity.
Qed.

(** [extract_json_from_text] returns the first stage that succeeds. *)
Lemma extract_stages text :
  extract_json_from_text text = Ok (first_success (stages text)).
Proof.
  destruct text as [|c text]; [vm_compute; reflexivity|].
  unfold extract_json_from_text.
  unfold stages at 1. unfold fenced_block.
  destruct (re_search code_block_pattern (c :: text)) as [m|]; cbn [option_map].
  - rewrite try_return_loads, extract_direct_stages.
    cbn [first_success]. destruct (parsed (Some _)); reflexivity.
  - rewrite extract_direct_stages. reflexivity.
Qed.

(** ** The object and array patterns: first opener to last closer *)









(** * Decoding what the encoder wrote *)

Ltac Zify.zify_post_hook ::= Z.to_euclidean_division_equations.


(** ** Escapes *)











(** ** Numbers *)















(** ** Values *)


Lemma str_eqb_eq a b : str_eqb a b = true <-> a = b.
Proof. unfold str_eqb. apply bool_decide_eq_true. Qed.

Lemma str_eqb_refl a : str_eqb a a = true.
Proof. apply str_eqb_eq. reflexivity. Qed.

Lemma str_eqb_neq a b : str_eqb a b = false <-> a <> b.
Proof. unfold str_eqb. apply bool_decide_eq_false. Qed.


















(** * The code-block pattern *)

















(** * Text around the encoded value *)















(** * Claims on [extract_json_from_text] *)








(** * PromptLoader *)

Lemma load_hit fs rt a v st p :
  cache st !! cache_key a v (language st) = Some p ->
  load fs rt a v st = (Ok p, st).
Proof. intros H. unfold load. rewrite H. reflexivity. Qed.

Lemma load_miss fs rt a v st :
  cache st !! cache_key a v (language st) = None ->
  load fs rt a v st = read_and_store fs rt a v st.
Proof.
  intros H. unfold load, read_and_store. rewrite H.
  destruct (resolve_prompt_file fs st a); [|reflexivity].
  destruct (read_prompts fs rt a0 a); reflexivity.
Qed.

Lemma read_and_store_language fs rt a v st :
  language (snd (read_and_store fs rt a v st)) = language st.
Proof.
  unfold read_and_store.
  destruct (resolve_prompt_file fs st a); [|reflexivity].
  destruct (read_prompts fs rt a0 a); reflexivity.
Qed.

Lemma load_language fs rt a v st : language (snd (load fs rt a v st)) = language st.
Proof.
  destruct (cache st !! cache_key a v (language st)) as [p|] eqn:E.
  - rewrite (load_hit _ _ _ _ _ _ E). reflexivity.
  - rewrite (load_miss _ _ _ _ _ E). apply read_and_store_language.
Qed.


Lemma load_stores fs rt a v st p st1 :
  load fs rt a v st = (Ok p, st1) ->
  cache st1 !! cache_key a v (language st) = Some p /\ language st1 = language st.
Proof.
  intros H. pose proof (load_language fs rt a v st) as L. rewrite H in L.
  split; [|exact L].
  destruct (cache st !! cache_key a v (language st)) as [q|] eqn:E.
  - rewrite (load_hit _ _ _ _ _ _ E) in H. inversion H; subst. exact E.
  - rewrite (load_miss _ _ _ _ _ E) in H. unfold read_and_store in H.
    destruct (resolve_prompt_file fs st a); [|inversion H].
    destruct (read_prompts fs rt a0 a); inversion H; subst.
    cbn [cache]. apply lookup_insert_eq.
Qed.




(** C10: [set_language] with a language other than [zh] and [en] raises
    [ValueError] and leaves the loader as it was; with [zh] or [en] it sets
    the language and empties the cache. *)
Theorem set_language_checks (lang : str) (st : loader) :
  (lang <> lit "zh" -> lang <> lit "en" ->
   exists msg, set_language lang st = (Raise (ValueError msg), st)) /\
  (lang = lit "zh" \/ lang = lit "en" ->
   set_language lang st =
   (Ok tt, {| base_dir := base_dir st; language := lang; cache := ∅ |})).
Proof.
  unfold set_language, supported_language. split.
  - intros Z E. apply str_eqb_neq in Z, E. rewrite Z, E. cbn. eauto.
  - intros [-> | ->]; reflexivity.
Qed.

Lemma set_language_checks_witness :
  (exists msg,
     set_language (lit "fr") (new_loader (lit "prompts") (lit "zh")) =
     (Raise (ValueError msg), new_loader (lit "prompts") (lit "zh"))) /\
  set_language (lit "en") (new_loader (lit "prompts") (lit "zh")) =
  (Ok tt, new_loader (lit "prompts") (lit "en")).
Proof.
  destruct (set_language_checks (lit "fr") (new_loader (lit "prompts") (lit "zh")))
    as [A _].
  destruct (set_language_checks (lit "en") (new_loader (lit "prompts") (lit "zh")))
    as [_ B].
  exact (conj (A ltac:(discriminate) ltac:(discriminate)) (B (or_intror eq_refl))).
Defined.



Lemma load_not_found fs rt a v st :
  cache st !! cache_key a v (language st) = None ->
  fs_exists fs (path_join (lang_dir st) (yaml_name a)) = false ->
  fs_exists fs (lang_dir st) = false \/ fs_rglob fs (lang_dir st) (yaml_name a) = [] ->
  exists msg, load fs rt a v st = (Raise (FileNotFoundError msg), st).
Proof.
  intros M E H. rewrite (load_miss _ _ _ _ _ M).
  unfold read_and_store, resolve_prompt_file. rewrite E.
  destruct H as [D|G].
  - rewrite D. eexists; reflexivity.
  - destruct (fs_exists fs (lang_dir st)); rewrite ?G; eexists; reflexivity.
Qed.

(** C8: on a cache miss [load] reads the exact file
    [<base_dir>/<language>/<agent_name>.yaml] when it exists, else the
    first file the recursive search under the language directory finds,
    else it raises [FileNotFoundError]; and [BaseAgent.__init__], whose
    loader is new, turns that error into [prompts = None]: nothing is
    raised, [has_prompts] is [False] and [get_prompt] gives [None], which
    is where a subclass takes its hardcoded prompt. *)
Theorem prompt_resolution fs rt a v st :
  cache st !! cache_key a v (language st) = None ->
  let exact := path_join (path_join (base_dir st) (language st)) (yaml_name a) in
  let dir := path_join (base_dir st) (language st) in
  (fs_exists fs exact = true ->
   load fs rt a v st = read_from fs rt exact a v st) /\
  (fs_exists fs exact = false -> fs_exists fs dir = true ->
   forall found more,
     fs_rglob fs dir (yaml_name a) = found :: more ->
     load fs rt a v st = read_from fs rt found a v st) /\
  (fs_exists fs exact = false ->
   fs_exists fs dir = false \/ fs_rglob fs dir (yaml_name a) = [] ->
   exists msg, load fs rt a v st = (Raise (FileNotFoundError msg), st)) /\
  (forall prompts_dir lang_code,
     let agent_dir := path_join prompts_dir lang_code in
     fs_exists fs (path_join agent_dir (yaml_name a)) = false ->
     fs_exists fs agent_dir = false \/ fs_rglob fs agent_dir (yaml_name a) = [] ->
     prompts (init_prompts fs rt prompts_dir lang_code a true) = None /\
     has_prompts (init_prompts fs rt prompts_dir lang_code a true) = false /\
     forall t, get_prompt rt (init_prompts fs rt prompts_dir lang_code a true) t = Ok None).
Proof.
  intros M exact dir. subst exact dir.
  split; [|split; [|split]].
  - intros E. rewrite (load_miss _ _ _ _ _ M).
    unfold read_and_store, read_from, resolve_prompt_file, lang_dir.
    rewrite E. reflexivity.
  - intros E D found more G. rewrite (load_miss _ _ _ _ _ M).
    unfold read_and_store, read_from, resolve_prompt_file, lang_dir.
    rewrite E, D, G. reflexivity.
  - intros E H. apply (load_not_found fs rt a v st M E H).
  - intros prompts_dir lang_code agent_dir E H. subst agent_dir.
    destruct (load_not_found fs rt a latest (new_loader prompts_dir lang_code)
                (lookup_empty _) E H) as [msg L].
    unfold init_prompts, has_prompts, get_prompt. rewrite L. cbn. auto.
Qed.

Lemma prompt_resolution_witness :
  (load disk_before plain_runtime (lit "plan") latest fresh_loader =
   read_from disk_before plain_runtime (lit "prompts/zh/plan.yaml") (lit "plan") latest
     fresh_loader) /\
  (load disk_before plain_runtime (lit "note") latest fresh_loader =
   read_from disk_before plain_runtime (lit "prompts/zh/solve/note.yaml") (lit "note")
     latest fresh_loader) /\
  (exists msg, load disk_after plain_runtime (lit "plan") latest fresh_loader =
               (Raise (FileNotFoundError msg), fresh_loader)) /\
  prompts (init_prompts disk_after plain_runtime (lit "prompts") (lit "zh") (lit "plan") true)
    = None.
Proof.
  destruct (prompt_resolution disk_before plain_runtime (lit "plan") latest fresh_loader
              eq_refl) as (A & _).
  destruct (prompt_resolution disk_before plain_runtime (lit "note") latest fresh_loader
              eq_refl) as (_ & B & _).
  destruct (prompt_resolution disk_after plain_runtime (lit "plan") latest fresh_loader
              eq_refl) as (_ & _ & C & D).
  exact (conj (A eq_refl)
           (conj (B eq_refl eq_refl _ _ eq_refl)
              (conj (C eq_refl (or_intror eq_refl))
                 (proj1 (D (lit "prompts") (lit "zh") eq_refl (or_intror eq_refl)))))).
Defined.

(** ** The shape of a loaded definition *)

Lemma dict_lookup_set_ne d key v k :
  key <> k -> dict_lookup (dict_set d key v) k = dict_lookup d k.
Proof.
  intros Hne. induction d as [|[k1 v1] d IH]; cbn.
  - apply str_eqb_neq in Hne. rewrite Hne. reflexivity.
  - destruct (str_eqb k1 key) eqn:E; cbn.
    + apply str_eqb_eq in E. subst.
      apply str_eqb_neq in Hne. rewrite Hne. reflexivity.
    + destruct (str_eqb k1 k); [reflexivity|exact IH].
Qed.

Lemma raw_fold_keeps items acc k :
  k = lit "system" \/ k = lit "user_template" ->
  dict_lookup
    (fold_left
       (fun p kv =>
          if str_eqb (fst kv) (lit "system") || str_eqb (fst kv) (lit "user_template")
          then p else dict_set p (fst kv) (snd kv))
       items acc) k =
  dict_lookup acc k.
Proof.
  intros Hk. revert acc. induction items as [|[k1 v1] items IH]; intros acc;
    cbn [fold_left fst snd]; [reflexivity|].
  rewrite IH.
  destruct (str_eqb k1 (lit "system")) eqn:E1; [reflexivity|].
  destruct (str_eqb k1 (lit "user_template")) eqn:E2; [reflexivity|].
  cbn [orb]. apply dict_lookup_set_ne.
  apply str_eqb_neq in E1, E2. destruct Hk; congruence.
Qed.

Lemma is_str_inv v : is_str v = true -> exists s, v = PStr s.
Proof. destruct v; try discriminate. eauto. Qed.


Lemma bind_ok {A B} (c : res A) (k : A -> res B) b :
  mbind k c = Ok b -> exists a, c = Ok a /\ k a = Ok b.
Proof. destruct c as [a|e]; cbn; [eauto|discriminate]. Qed.

Ltac res_step H :=
  let x := fresh "x" in
  let E := fresh "E" in
  apply bind_ok in H as (x & E & H); cbn beta zeta in H.



Lemma validate_raw config a :
  _validate_config config a = Ok Raw ->
  exists s u,
    py_getitem config (lit "system") = Ok (PStr s) /\
    py_getitem config (lit "user_template") = Ok u /\ is_str u = true.
Proof.
  intros V. unfold _validate_config in V.
  apply bind_ok in V as (? & _ & V).
  apply bind_ok in V as (section & Es & V).
  destruct (is_dict section) eqn:D.
  { do 5 res_step V. discriminate V. }
  destruct (is_str section) eqn:S; cbn [negb] in V; [|discriminate V].
  apply bind_ok in V as (? & _ & V).
  apply bind_ok in V as (u & Eu & V).
  destruct (is_str u) eqn:Su; cbn [negb] in V; [|discriminate V].
  destruct (is_str_inv _ S) as [s ->]. eauto.
Qed.






(** * BaseAgent.call_llm *)

Lemma completions_app a b : completions (a ++ b) = (completions a + completions b)%nat.
Proof. unfold completions. rewrite List.filter_app, length_app. reflexivity. Qed.

(** C9: without a [model] argument the model is the value of [LLM_MODEL];
    when that is absent (or empty) [call_llm] raises a [ValueError] whose
    message names the variable, and nothing has been sent by then; and a
    call sends at most one completion request, so there is no retry. *)
Theorem call_llm_model rt getenv complete a user_prompt system_prompt rf temp stage :
  (getenv (lit "LLM_MODEL") = None \/ getenv (lit "LLM_MODEL") = Some [] ->
   exists detail,
     call_llm rt getenv complete a user_prompt system_prompt rf temp None stage =
     (Raise (ValueError
               (lit "Error: Environment variable LLM_MODEL is not set" ++ detail)),
      [])) /\
  (forall c m,
     getenv (lit "LLM_MODEL") = Some (c :: m) ->
     exists before rq after,
       snd (call_llm rt getenv complete a user_prompt system_prompt rf temp None stage) =
       before ++ EvComplete rq :: after /\
       rq_model rq = c :: m /\ completions before = 0%nat /\ completions after = 0%nat) /\
  (forall model,
     (completions
        (snd (call_llm rt getenv complete a user_prompt system_prompt rf temp model stage))
      <= 1)%nat).
Proof.
  split; [|split].
  - intros H. unfold call_llm, get_model. cbn [or_str].
    destruct H as [-> | ->]; eexists; reflexivity.
  - intros c m H. unfold call_llm, get_model. cbn [or_str]. rewrite H.
    match goal with |- context [complete ?r] => set (rq := r) end.
    destruct (complete rq) as [[response reported]|e]; cbn [snd].
    + eexists _, rq, _. split; [reflexivity|]. split; [reflexivity|].
      split; [destruct (ba_log_llm_input a); reflexivity|].
      rewrite completions_app.
      destruct (ba_token_tracker a) as [[|]|], reported as [counts|],
        (ba_log_llm_output a); try destruct (py_truthy rt counts); reflexivity.
    + eexists _, rq, []. split; [reflexivity|]. split; [reflexivity|].
      split; [destruct (ba_log_llm_input a); reflexivity|reflexivity].
  - intros model. unfold call_llm.
    destruct (match or_str model with Some m => Ok m | None => get_model getenv a end)
      as [m|e]; [|cbn; lia].
    match goal with |- context [complete ?r] => set (rq := r) end.
    destruct (complete rq) as [[response reported]|e]; cbn [snd];
      rewrite !completions_app;
      destruct (ba_log_llm_input a);
      try (destruct (ba_token_tracker a) as [[|]|], reported as [counts|],
           (ba_log_llm_output a); try destruct (py_truthy rt counts));
      cbn; lia.
Qed.

Lemma call_llm_model_witness :
  (exists detail,
     call_llm plain_runtime empty_env echo_complete sample_agent (lit "question") (lit "system")
       None None None None =
     (Raise (ValueError
               (lit "Error: Environment variable LLM_MODEL is not set" ++ detail)),
      [])) /\
  (exists before rq after,
     snd (call_llm plain_runtime model_env echo_complete sample_agent (lit "question") (lit "system")
            None None None None) = before ++ EvComplete rq :: after /\
     rq_model rq = lit "gpt-4o-mini" /\
     completions before = 0%nat /\ completions after = 0%nat).
Proof.
  destruct (call_llm_model plain_runtime empty_env echo_complete sample_agent (lit "question")
              (lit "system") None None None) as (A & _).
  destruct (call_llm_model plain_runtime model_env echo_complete sample_agent (lit "question")
              (lit "system") None None None) as (_ & B & _).
  exact (conj (A (or_introl eq_refl)) (B _ _ eq_refl)).
Defined.

(** * MaterialOrganizerAgent *)

Lemma validate_point_ok rt floor point k :
  validate_point rt floor point = Ok (Some k) ->
  filled k /\ (floor <= length (description k))%nat.
Proof.
  unfold validate_point. intros H.
  apply bind_ok in H as ([|] & _ & H); [|discriminate H].
  apply bind_ok in H as ([|] & _ & H); [|discriminate H].
  apply bind_ok in H as (kpv & _ & H).
  apply bind_ok in H as (dv & _ & H). cbn zeta in H.
  destruct (nonempty (strip (py_str rt kpv))) eqn:A; [|discriminate H].
  destruct (nonempty (strip (py_str rt dv))) eqn:B; [|discriminate H].
  destruct (floor <=? length (strip (py_str rt dv)))%nat eqn:C; [|discriminate H].
  inversion H; subst. unfold filled. cbn.
  apply Nat.leb_le in C. auto.
Qed.

Lemma validate_points_ok rt floor points l :
  validate_points rt floor points = Ok l ->
  Forall (fun k => filled k /\ (floor <= length (description k))%nat) l.
Proof.
  revert l. induction points as [|point points IH]; intros l H; cbn [validate_points] in H.
  - inversion H. constructor.
  - apply bind_ok in H as (r & R & H).
    apply bind_ok in H as (validated & V & H).
    inversion H; subst. specialize (IH _ V).
    destruct r as [k|]; [|exact IH].
    constructor; [apply (validate_point_ok _ _ _ _ R)|exact IH].
Qed.

Lemma synthetic_filled n : filled (synthetic_point n) /\ filled (synthetic_topic n).
Proof. repeat split. Qed.

(** What the fallback returns has both fields filled. *)
Lemma fallback_filled rt ag call records thoughts l :
  _fallback_extract rt ag call records thoughts = Ok l ->
  l <> [] /\ Forall filled l.
Proof.
  unfold _fallback_extract. intros H.
  apply bind_ok in H as (materials_text & _ & H).
  apply bind_ok in H as (system_prompt & _ & H).
  apply bind_ok in H as (user_template & _ & H). cbn zeta in H.
  apply bind_ok in H as (user_prompt & _ & H).
  unfold except_any in H.
  match type of H with
  | match ?body with _ => _ end = _ => destruct body as [r|e] eqn:B
  end.
  - apply bind_ok in B as (response & _ & B).
    apply bind_ok in B as (result & _ & B).
    apply bind_ok in B as (knowledge_points & _ & B).
    apply bind_ok in B as (points & _ & B).
    apply bind_ok in B as (validated & V & B).
    inversion B; subst. inversion H; subst.
    destruct validated as [|k vs].
    + split; [discriminate|]. constructor; [apply synthetic_filled|constructor].
    + split; [discriminate|].
      apply validate_points_ok in V.
      eapply Forall_impl; [exact V|]. intros x [F _]. exact F.
  - inversion H; subst. split; [discriminate|].
    constructor; [apply synthetic_filled|constructor].
Qed.

(** C2 fails on the code: a response that is JSON but not of the expected
    shape makes [process] raise.  With [{"knowledge_points": null}] the
    [len] of line 96 raises [TypeError]; with [[]] the [.get] of line 95
    raises [AttributeError].  Only [JSONDecodeError] is caught there,
    whereas [_fallback_extract] answers the same responses with its
    synthetic payload. *)
Theorem process_escapes :
  process plain_runtime null_points_organizer one_record None = Raise TypeError /\
  process plain_runtime array_organizer one_record None = Raise AttributeError /\
  _fallback_extract plain_runtime null_points_organizer 1 one_record None =
    Ok [synthetic_topic 1] /\
  _fallback_extract plain_runtime array_organizer 1 one_record None =
    Ok [synthetic_topic 1].
Proof. repeat split; vm_compute; reflexivity. Qed.

(** C4, as stated, fails: when the first response is no JSON the fallback
    accepts a description of one character. *)
Lemma process_short_description_counterexample :
  process plain_runtime short_fallback_organizer one_record None =
    Ok [{| knowledge_point := lit "A"; description := lit "B" |}] /\
  (length (lit "B") < 10)%nat.
Proof. split; [vm_compute; reflexivity|cbn; lia]. Qed.

(** C4 (amended): every element of the list [process] returns has a
    non-empty [knowledge_point] and a non-empty [description]; either all
    descriptions have at least 10 characters (the list validated from the
    first response) or the list is the one the fallback extraction
    returned, which is not empty and carries no length floor. *)
Theorem process_points_filled rt ag records thoughts l :
  process rt ag records thoughts = Ok l ->
  Forall filled l /\
  (Forall (fun k => (10 <= length (description k))%nat) l \/
   (_fallback_extract rt ag 1 records thoughts = Ok l /\ l <> [])).
Proof.
  unfold process. intros H.
  apply bind_ok in H as (materials_text & _ & H). cbn zeta in H.
  apply bind_ok in H as (system_prompt & _ & H).
  apply bind_ok in H as (user_template & _ & H).
  apply bind_ok in H as (user_prompt & _ & H).
  apply bind_ok in H as (response & _ & H).
  assert (FB : _fallback_extract rt ag 1 records thoughts = Ok l ->
               Forall filled l /\
               (Forall (fun k => (10 <= length (description k))%nat) l \/
                (_fallback_extract rt ag 1 records thoughts = Ok l /\ l <> []))).
  { intros F. destruct (fallback_filled _ _ _ _ _ _ F) as [N A]. auto. }
  unfold except_decode in H.
  match type of H with
  | match ?body with _ => _ end = _ => destruct body as [r|e] eqn:B
  end.
  - inversion H; subst r. clear H.
    apply bind_ok in B as (result & _ & B).
    apply bind_ok in B as (knowledge_points & _ & B).
    apply bind_ok in B as (n & _ & B).
    apply bind_ok in B as (points & _ & B).
    apply bind_ok in B as (validated & V & B).
    apply validate_points_ok in V.
    destruct validated as [|k vs].
    + destruct records; [inversion B; subst; split; [constructor|left; constructor]|].
      apply FB. exact B.
    + inversion B; subst. split.
      * eapply Forall_impl; [exact V|]. intros x [F _]. exact F.
      * left. eapply Forall_impl; [exact V|]. intros x [_ F]. exact F.
  - destruct e; try discriminate H. apply FB. exact H.
Qed.

Lemma process_points_filled_witness :
  Forall filled [{| knowledge_point := lit "A"; description := lit "B" |}].
Proof.
  exact (proj1 (process_points_filled plain_runtime short_fallback_organizer one_record
                  None [{| knowledge_point := lit "A"; description := lit "B" |}]
                  eq_refl)).
Defined.

(** * [clean_json_string] *)

Lemma clean_cons c s :
  clean_json_string (c :: s) =
  if control_char c then clean_json_string s else c :: clean_json_string s.
Proof.
  unfold clean_json_string, re_sub_class. cbn [flat_map].
  destruct (control_char c); reflexivity.
Qed.

Lemma clean_app s t :
  clean_json_string (s ++ t) = clean_json_string s ++ clean_json_string t.
Proof. unfold clean_json_string, re_sub_class. apply flat_map_app. Qed.

Lemma clean_no_control s : no_control (clean_json_string s) = true.
Proof.
  induction s as [|c s IH]; [reflexivity|].
  rewrite clean_cons. destruct (control_char c) eqn:E; [exact IH|].
  cbn [no_control forallb]. rewrite E. exact IH.
Qed.

Lemma clean_fixed s : no_control s = true -> clean_json_string s = s.
Proof.
  induction s as [|c s IH]; [reflexivity|].
  cbn [no_control forallb]. intros H. apply andb_true_iff in H as [A B].
  rewrite clean_cons. apply negb_true_iff in A. rewrite A, (IH B). reflexivity.
Qed.

Lemma clean_length s : (length (clean_json_string s) <= length s)%nat.
Proof.
  induction s as [|c s IH]; [reflexivity|].
  rewrite clean_cons. destruct (control_char c); cbn [length]; lia.
Qed.


(** X1: [clean_json_string] removes the control characters and nothing
    else: a character is in the result exactly when it is in the text and
    is no control character, the result is never longer, cleaning twice is
    cleaning once, cleaning goes through concatenation, and a text is
    left as it is exactly when it holds no control character. *)
Theorem clean_json_string_removes (s t : str) :
  (forall c, In c (clean_json_string s) <-> In c s /\ control_char c = false) /\
  (length (clean_json_string s) <= length s)%nat /\
  clean_json_string (clean_json_string s) = clean_json_string s /\
  clean_json_string (s ++ t) = clean_json_string s ++ clean_json_string t /\
  (clean_json_string s = s <-> no_control s = true).
Proof.
  split; [|split; [apply clean_length|split; [|split; [apply clean_app|]]]].
  - intros c. induction s as [|x s IH]; [cbn; tauto|].
    rewrite clean_cons. destruct (control_char x) eqn:E; cbn [In]; rewrite IH.
    + split; [tauto|]. intros [[->|H] C]; [congruence|tauto].
    + split; [intros [->|H]; tauto|tauto].
  - apply clean_fixed, clean_no_control.
  - split; [|apply clean_fixed].
    intros H. rewrite <- H. apply clean_no_control.
Qed.

(** ** The encoder writes no control character *)




















(** * More on [extract_json_from_text] *)

(** ** Whitespace around the value *)










(** ** A fenced block inside prose *)







(** * More on the PromptLoader *)

(** ** The global loader *)

(** X5: [get_prompt_loader] checks the language only when the global
    loader exists already.  The first call creates the loader with any
    non-empty language it is given, supported or not ([None] and the
    empty string give [zh]); the same call made again then raises
    [ValueError] and leaves the loader as it is. *)
Theorem get_prompt_loader_unchecked (default_dir lang : str) :
  lang <> [] ->
  supported_language lang = false ->
  get_prompt_loader default_dir (Some lang) None =
    (Ok tt, Some (new_loader default_dir lang)) /\
  (exists msg,
     get_prompt_loader default_dir (Some lang) (Some (new_loader default_dir lang)) =
     (Raise (ValueError msg), Some (new_loader default_dir lang))) /\
  get_prompt_loader default_dir None None =
    (Ok tt, Some (new_loader default_dir (lit "zh"))) /\
  get_prompt_loader default_dir (Some []) None =
    (Ok tt, Some (new_loader default_dir (lit "zh"))).
Proof.
  intros Hne U. split; [|split; [|split]]; try reflexivity.
  - destruct lang; [congruence|reflexivity].
  - unfold get_prompt_loader, set_language. rewrite U. cbn. eauto.
Qed.

Lemma get_prompt_loader_unchecked_witness :
  get_prompt_loader (lit "prompts") (Some (lit "fr")) None =
    (Ok tt, Some (new_loader (lit "prompts") (lit "fr"))) /\
  exists msg,
    get_prompt_loader (lit "prompts") (Some (lit "fr"))
      (Some (new_loader (lit "prompts") (lit "fr"))) =
    (Raise (ValueError msg), Some (new_loader (lit "prompts") (lit "fr"))).
Proof.
  destruct (get_prompt_loader_unchecked (lit "prompts") (lit "fr")
              ltac:(discriminate) eq_refl) as (A & B & _).
  exact (conj A B).
Defined.

(** X6: asking for the global loader with a language, even the one it has,
    empties its cache, so the next [load] reads the disk again; asking
    without a language leaves the loader untouched, and the next [load] of
    a loaded key is answered from the cache. *)
Theorem get_prompt_loader_resets fs rt a v st p st1 default_dir :
  load fs rt a v st = (Ok p, st1) ->
  supported_language (language st) = true ->
  let again :=
    {| base_dir := base_dir st1; language := language st; cache := ∅ |} in
  get_prompt_loader default_dir (Some (language st)) (Some st1) =
    (Ok tt, Some again) /\
  (forall fs', load fs' rt a v again = read_and_store fs' rt a v again) /\
  get_prompt_loader default_dir None (Some st1) = (Ok tt, Some st1) /\
  (forall fs', load fs' rt a v st1 = (Ok p, st1)).
Proof.
  intros H S again. destruct (load_stores _ _ _ _ _ _ _ H) as [C L].
  split; [|split; [|split]].
  - unfold get_prompt_loader, set_language. rewrite S. reflexivity.
  - intros fs'. apply load_miss. apply lookup_empty.
  - reflexivity.
  - intros fs'. apply load_hit. rewrite L. exact C.
Qed.

Lemma get_prompt_loader_resets_witness :
  get_prompt_loader (lit "prompts") (Some (lit "zh")) (Some note_loaded) =
    (Ok tt, Some fresh_loader) /\
  (exists msg,
     load (disk [] []) plain_runtime (lit "note") latest fresh_loader =
     (Raise (FileNotFoundError msg), fresh_loader)) /\
  load (disk [] []) plain_runtime (lit "note") latest note_loaded =
    (Ok empty_raw_template, note_loaded).
Proof.
  assert (H : load disk_before plain_runtime (lit "note") latest fresh_loader =
              (Ok empty_raw_template, note_loaded))
    by (vm_compute; reflexivity).
  destruct (get_prompt_loader_resets _ _ _ _ _ _ _ (lit "prompts") H eq_refl)
    as (A & B & _ & D).
  refine (conj A (conj _ (D (disk [] [])))).
  pose proof (B (disk [] [])) as B'.
  change (load (disk [] []) plain_runtime (lit "note") latest fresh_loader =
          read_and_store (disk [] []) plain_runtime (lit "note") latest fresh_loader)
    in B'.
  rewrite B'. eexists. vm_compute. reflexivity.
Defined.

(** ** Loads that fail *)

Lemma load_failure fs rt a v st e st' :
  load fs rt a v st = (Raise e, st') -> st' = st.
Proof.
  unfold load. destruct (cache st !! cache_key a v (language st)); [congruence|].
  destruct (resolve_prompt_file fs st a) as [f|]; [|congruence].
  destruct (read_prompts fs rt f a); congruence.
Qed.

(** X7: a [load] that raises caches nothing: the loader is as it was.  A
    [reload] that raises has nevertheless evicted the entry it was asked
    for, and only that one; the definition the cache held is lost, and the
    next [load] of that key reads the disk. *)
Theorem reload_failure_evicts fs rt a v st e st' :
  reload fs rt a v st = (Raise e, st') ->
  let key := cache_key a v (language st) in
  st' = evict key st /\
  cache st' !! key = None /\
  (forall k, k <> key -> cache st' !! k = cache st !! k) /\
  (forall fs', load fs' rt a v st' = read_and_store fs' rt a v st') /\
  (forall e0 st0, load fs rt a v st = (Raise e0, st0) -> st0 = st).
Proof.
  intros H key. unfold reload in H. fold key in H. fold (evict key st) in H.
  apply load_failure in H. subst st'.
  split; [reflexivity|]. split; [apply lookup_delete_eq|].
  split; [intros k Hk; cbn [evict cache]; apply lookup_delete_ne; congruence|].
  split; [|intros e0 st0; apply load_failure].
  intros fs'. apply load_miss. cbn [evict cache language]. apply lookup_delete_eq.
Qed.

Lemma reload_failure_evicts_witness :
  cache note_loaded !! cache_key (lit "note") latest (lit "zh") = Some empty_raw_template /\
  cache (snd (reload (disk [] []) plain_runtime (lit "note") latest note_loaded))
    !! cache_key (lit "note") latest (lit "zh") = None.
Proof.
  split; [vm_compute; reflexivity|].
  refine (proj1 (proj2 (reload_failure_evicts (disk [] []) plain_runtime (lit "note")
                          latest note_loaded
                          (FileNotFoundError
                             (lit "Prompt config directory not found: prompts/zh" ++ nl ++
                              lit "Please ensure directory exists"))
                          _ _))).
  vm_compute. reflexivity.
Defined.

(** ** Raw templates are handed on as they are *)

Lemma dict_lookup_set_eq d key v : dict_lookup (dict_set d key v) key = Some v.
Proof.
  induction d as [|[k1 v1] d IH]; cbn [dict_set dict_lookup].
  - rewrite str_eqb_refl. reflexivity.
  - destruct (str_eqb k1 key) eqn:E; cbn [dict_lookup]; rewrite E; [reflexivity|exact IH].
Qed.

Lemma raw_fold_other items acc k :
  distinct_keys items = true ->
  k <> lit "system" -> k <> lit "user_template" ->
  dict_lookup
    (fold_left
       (fun p kv =>
          if str_eqb (fst kv) (lit "system") || str_eqb (fst kv) (lit "user_template")
          then p else dict_set p (fst kv) (snd kv))
       items acc) k =
  match dict_lookup items k with
  | Some x => Some x
  | None => dict_lookup acc k
  end.
Proof.
  intros D N1 N2. revert acc D.
  induction items as [|[k1 v1] items IH]; intros acc D; [reflexivity|].
  cbn [distinct_keys] in D. apply andb_true_iff in D as [D1 D2].
  cbn [fold_left fst snd dict_lookup]. rewrite (IH _ D2).
  destruct (str_eqb k1 k) eqn:E.
  - apply str_eqb_eq in E. subst k1.
    apply negb_true_iff in D1. unfold dict_has in D1.
    destruct (dict_lookup items k); [discriminate|].
    apply str_eqb_neq in N1, N2. rewrite N1, N2. cbn [orb].
    apply dict_lookup_set_eq.
  - destruct (dict_lookup items k); [reflexivity|].
    destruct (str_eqb k1 (lit "system") || str_eqb k1 (lit "user_template"));
      [reflexivity|].
    apply dict_lookup_set_ne. apply str_eqb_neq. exact E.
Qed.

(** X8: a template that validates as raw always builds, and what is built
    is the mapping of the file: every key of the file with the value the
    file gives it, and no other key.  Nothing is formatted, checked or
    dropped. *)
Theorem raw_template_unchanged rt config a d :
  _validate_config config a = Ok Raw ->
  config = PDict d ->
  distinct_keys d = true ->
  exists d',
    _build_prompts rt config Raw = Ok (PDict d') /\
    forall k, dict_lookup d' k = dict_lookup d k.
Proof.
  intros V -> D. destruct (validate_raw _ _ V) as (s & u & Hs & Hu & _).
  cbn [py_getitem] in Hs, Hu.
  destruct (dict_lookup d (lit "system")) as [sv|] eqn:Es; [|discriminate Hs].
  destruct (dict_lookup d (lit "user_template")) as [uv|] eqn:Eu; [|discriminate Hu].
  inversion Hs; subst sv. inversion Hu; subst uv.
  cbn [_build_prompts]. unfold build_raw. cbn [py_getitem py_get].
  rewrite Es, Eu. cbn [mbind res_bind].
  eexists. split; [reflexivity|].
  intros k.
  destruct (decide (k = lit "system")) as [->|N1].
  { rewrite raw_fold_keeps by auto. rewrite Es. reflexivity. }
  destruct (decide (k = lit "user_template")) as [->|N2].
  { rewrite raw_fold_keeps by auto. rewrite Eu. reflexivity. }
  rewrite (raw_fold_other _ _ _ D N1 N2).
  destruct (dict_lookup d k); [reflexivity|].
  cbn [dict_lookup].
  assert (S1 : str_eqb (lit "system") k = false) by (apply str_eqb_neq; congruence).
  assert (S2 : str_eqb (lit "user_template") k = false) by (apply str_eqb_neq; congruence).
  rewrite S1, S2. reflexivity.
Qed.

Lemma raw_template_unchanged_witness :
  exists d',
    _build_prompts plain_runtime raw_template_with_notes Raw = Ok (PDict d') /\
    forall k,
      dict_lookup d' k =
      dict_lookup [(lit "notes", PList [PStr (lit "be brief")]);
                   (lit "system", PStr (lit "You tutor."));
                   (lit "user_template", PStr (lit "{question}"))] k.
Proof.
  exact (raw_template_unchanged plain_runtime raw_template_with_notes (lit "note") _
           eq_refl eq_refl eq_refl).
Defined.

(** ** Structured templates that validate and do not build *)

Lemma require_key_ok key v e : require_key key v e = Ok tt -> py_in key v = Ok true.
Proof.
  unfold require_key. destruct (py_in key v) as [[|]|]; cbn; congruence.
Qed.

Lemma py_in_dict key v d : v = PDict d -> py_in key v = Ok true -> dict_has d key = true.
Proof. intros -> H. cbn in H. congruence. Qed.

Lemma py_getitem_dict v key x :
  py_getitem v key = Ok x -> exists d, v = PDict d /\ dict_lookup d key = Some x.
Proof.
  destruct v; try discriminate. cbn [py_getitem].
  destruct (dict_lookup d key) eqn:E; [|discriminate].
  intros H. inversion H; subst. eauto.
Qed.

Lemma dict_has_lookup d key : dict_has d key = true -> exists x, dict_lookup d key = Some x.
Proof. unfold dict_has. destruct (dict_lookup d key); [eauto|discriminate]. Qed.

(** What [_validate_config] has checked when it answers [structured]. *)
Lemma validate_structured config a :
  _validate_config config a = Ok Structured ->
  exists d sd role task user_config,
    config = PDict d /\
    dict_lookup d (lit "system") = Some (PDict sd) /\
    dict_lookup sd (lit "role") = Some role /\
    dict_lookup sd (lit "task") = Some task /\
    dict_lookup d (lit "user") = Some user_config /\
    py_in (lit "template") user_config = Ok true.
Proof.
  intros V. unfold _validate_config in V.
  apply bind_ok in V as ([] & _ & V).
  apply bind_ok in V as (section & Es & V).
  destruct (py_getitem_dict _ _ _ Es) as (d & -> & Ls).
  destruct (is_dict section) eqn:D.
  - destruct section as [ | | | | | |sd]; try discriminate D.
    apply bind_ok in V as ([] & Ku & V).
    apply bind_ok in V as ([] & Kr & V).
    apply bind_ok in V as ([] & Kt & V).
    apply bind_ok in V as (user_config & Eu & V).
    apply bind_ok in V as ([] & Kp & _).
    apply require_key_ok in Kr, Kt, Kp.
    destruct (dict_has_lookup _ _ (py_in_dict _ _ _ eq_refl Kr)) as [role Lr].
    destruct (dict_has_lookup _ _ (py_in_dict _ _ _ eq_refl Kt)) as [task Lt].
    destruct (py_getitem_dict _ _ _ Eu) as (d0 & E0 & Lu). inversion E0; subst d0.
    exists d, sd, role, task, user_config. auto 10.
  - destruct (is_str section); cbn [negb] in V; [|discriminate V].
    apply bind_ok in V as ([] & _ & V).
    apply bind_ok in V as (u & _ & V).
    destruct (is_str u); cbn [negb] in V; discriminate V.
Qed.

Lemma py_iter_cases v : (exists l, py_iter v = Ok l) \/ py_iter v = Raise TypeError.
Proof. destruct v; cbn [py_iter]; eauto. Qed.

Lemma bullet_section_cases rt sd key header :
  (exists l, bullet_section rt (PDict sd) key header = Ok l) \/
  bullet_section rt (PDict sd) key header = Raise TypeError.
Proof.
  unfold bullet_section. cbn [py_get py_getitem].
  destruct (dict_lookup sd key) as [x|]; cbn [mbind res_bind];
    [|left; cbn; eauto].
  destruct (py_truthy rt x); [|eauto].
  destruct (py_iter_cases x) as [[l ->]| ->]; cbn; eauto.
Qed.

Lemma str_parts_cases parts :
  (exists ss, str_parts parts = Ok ss) \/ str_parts parts = Raise TypeError.
Proof.
  induction parts as [|x parts IH]; [left; cbn; eauto|].
  destruct x; cbn [str_parts]; auto.
  destruct IH as [[ss ->]| ->]; cbn; eauto.
Qed.

Lemma py_join_cases sep parts :
  (exists s, py_join sep parts = Ok s) \/ py_join sep parts = Raise TypeError.
Proof.
  unfold py_join. destruct (str_parts_cases parts) as [[ss ->]| ->]; cbn; eauto.
Qed.

Lemma py_join_bad sep a b x rest :
  is_str x = false -> py_join sep (PStr a :: PStr b :: x :: rest) = Raise TypeError.
Proof. intros H. destruct x; try discriminate H; reflexivity. Qed.

Lemma template_cases user_config :
  py_in (lit "template") user_config = Ok true ->
  (exists u, py_getitem user_config (lit "template") = Ok u /\ is_dict user_config = true) \/
  (py_getitem user_config (lit "template") = Raise TypeError /\
   is_dict user_config = false).
Proof.
  destruct user_config; try discriminate; cbn [py_in py_getitem is_dict]; auto.
  intros H. assert (H1 : dict_has d (lit "template") = true) by congruence.
  destruct (dict_has_lookup d (lit "template") H1) as [u E]. rewrite E. eauto.
Qed.

(** X9: a template that validates as structured need not build.  After
    [_validate_config] has answered [structured], [_build_prompts] either
    returns a definition or raises [TypeError], and no other exception;
    it does raise [TypeError] when the [task] is no string, and when the
    [user] section is no mapping (a text or a list that holds
    [template]): neither is looked at by the validation. *)
Theorem structured_build_outcome rt config a :
  _validate_config config a = Ok Structured ->
  ((exists p, _build_prompts rt config Structured = Ok p) \/
   _build_prompts rt config Structured = Raise TypeError) /\
  (forall section task,
     py_getitem config (lit "system") = Ok section ->
     py_getitem section (lit "task") = Ok task ->
     is_str task = false ->
     _build_prompts rt config Structured = Raise TypeError) /\
  (forall user_config,
     py_getitem config (lit "user") = Ok user_config ->
     is_dict user_config = false ->
     _build_prompts rt config Structured = Raise TypeError).
Proof.
  intros V.
  destruct (validate_structured _ _ V)
    as (d & sd & role & task & user_config & -> & Ls & Lr & Lt & Lu & Kp).
  cbn [_build_prompts]. unfold build_structured. cbn [py_getitem py_get].
  rewrite Ls, Lu. cbn [mbind res_bind py_getitem]. rewrite Lr, Lt.
  cbn [mbind res_bind].
  destruct (bullet_section_cases rt sd (lit "requirements") (lit "Requirements:"))
    as [[l1 ->]| ->]; cbn [mbind res_bind];
    [|split; [auto|split; intros; reflexivity]].
  destruct (bullet_section_cases rt sd (lit "constraints") (lit "Constraints:"))
    as [[l2 ->]| ->]; cbn [mbind res_bind];
    [|split; [auto|split; intros; reflexivity]].
  cbn [py_get].
  destruct (dict_lookup sd (lit "output_format")) as [fmt|]; cbn [mbind res_bind].
  - destruct (bullet_section_cases rt sd (lit "notes") (lit "Notes:"))
      as [[l3 ->]| ->]; cbn [mbind res_bind];
      [|split; [auto|split; intros; reflexivity]].
    split; [|split].
    + destruct (py_join_cases nl
                  ([PStr (lit "You are " ++ py_str rt role ++ lit "."); PStr []; task] ++
                   l1 ++ l2 ++
                   (if py_truthy rt fmt then [PStr []; PStr (lit "Output Format:"); fmt]
                    else []) ++ l3)) as [[sp ->]| ->]; cbn [mbind res_bind]; [|auto].
      destruct (template_cases _ Kp) as [(u & -> & _)|[-> _]]; cbn; eauto.
    + intros section task0 Hs Ht St. inversion Hs; subst section.
      cbn [py_getitem] in Ht. rewrite Lt in Ht. inversion Ht; subst task0.
      cbn [app]. rewrite (py_join_bad _ _ _ _ _ St). reflexivity.
    + intros uc Hu Du. inversion Hu; subst uc.
      destruct (template_cases _ Kp) as [(u & _ & D)|[E _]]; [congruence|].
      rewrite E.
      match goal with
      | |- context [py_join ?s ?l] => destruct (py_join_cases s l) as [[sp ->]| ->]
      end; reflexivity.
  - destruct (bullet_section_cases rt sd (lit "notes") (lit "Notes:"))
      as [[l3 ->]| ->]; cbn [mbind res_bind];
      [|split; [auto|split; intros; reflexivity]].
    split; [|split].
    + destruct (py_join_cases nl
                  ([PStr (lit "You are " ++ py_str rt role ++ lit "."); PStr []; task] ++
                   l1 ++ l2 ++
                   (if py_truthy rt PNone then [PStr []; PStr (lit "Output Format:"); PNone]
                    else []) ++ l3)) as [[sp ->]| ->]; cbn [mbind res_bind]; [|auto].
      destruct (template_cases _ Kp) as [(u & -> & _)|[-> _]]; cbn; eauto.
    + intros section task0 Hs Ht St. inversion Hs; subst section.
      cbn [py_getitem] in Ht. rewrite Lt in Ht. inversion Ht; subst task0.
      cbn [app]. rewrite (py_join_bad _ _ _ _ _ St). reflexivity.
    + intros uc Hu Du. inversion Hu; subst uc.
      destruct (template_cases _ Kp) as [(u & _ & D)|[E _]]; [congruence|].
      rewrite E.
      match goal with
      | |- context [py_join ?s ?l] => destruct (py_join_cases s l) as [[sp ->]| ->]
      end; reflexivity.
Qed.

Lemma structured_build_outcome_witness :
  _build_prompts plain_runtime numeric_task_template Structured = Raise TypeError /\
  _build_prompts plain_runtime text_user_template Structured = Raise TypeError.
Proof.
  destruct (structured_build_outcome plain_runtime numeric_task_template (lit "plan")
              eq_refl) as (_ & A & _).
  destruct (structured_build_outcome plain_runtime text_user_template (lit "plan")
              eq_refl) as (_ & _ & B).
  exact (conj (A _ _ eq_refl eq_refl eq_refl) (B _ eq_refl eq_refl)).
Defined.

(** ** Documents that are no mapping *)

Lemma validate_non_mapping config a :
  is_dict config = false ->
  _validate_config config a = Raise TypeError \/
  exists msg, _validate_config config a = Raise (ValueError msg).
Proof.
  intros D. unfold _validate_config, require_key.
  destruct config as [ | | | |s|l|d]; try discriminate D; cbn [py_in mbind res_bind]; auto.
  - destruct (contains (lit "system") s); cbn; [auto|right; eauto].
  - destruct (existsb (is_str_value (lit "system")) l); cbn; [auto|right; eauto].
Qed.

(** X10: when the YAML document of the template is no mapping, [load]
    raises and caches nothing: [ValueError] for a text or a list that does
    not hold [system], [TypeError] otherwise.  An empty file, which YAML
    reads as [None], gives [TypeError]; [BaseAgent.__init__] then logs an
    error and goes on without prompts. *)
Theorem load_non_mapping fs rt a v st config :
  cache st !! cache_key a v (language st) = None ->
  fs_exists fs (path_join (lang_dir st) (yaml_name a)) = true ->
  fs_yaml fs (path_join (lang_dir st) (yaml_name a)) = inr config ->
  is_dict config = false ->
  (load fs rt a v st = (Raise TypeError, st) \/
   exists msg, load fs rt a v st = (Raise (ValueError msg), st)) /\
  (config = PNone -> load fs rt a v st = (Raise TypeError, st)) /\
  (prompts (init_prompts fs rt (base_dir st) (language st) a true) = None /\
   exists msg, init_log (init_prompts fs rt (base_dir st) (language st) a true) =
               [LogError msg]).
Proof.
  intros M E Y D.
  assert (L : forall v0 st0,
            base_dir st0 = base_dir st -> language st0 = language st ->
            cache st0 !! cache_key a v0 (language st0) = None ->
            load fs rt a v0 st0 =
            (match _validate_config config a with
             | Ok ct => Raise TypeError
             | Raise e => Raise e
             end, st0)).
  { intros v0 st0 Hb Hl M0. rewrite (load_miss _ _ _ _ _ M0).
    unfold read_and_store, resolve_prompt_file, lang_dir in *.
    rewrite Hb, Hl, E. unfold read_prompts. rewrite Y.
    destruct (validate_non_mapping config a D) as [-> | [msg ->]]; reflexivity. }
  split; [|split].
  - rewrite (L v st eq_refl eq_refl M).
    destruct (validate_non_mapping config a D) as [-> | [msg ->]]; eauto.
  - intros ->. rewrite (L v st eq_refl eq_refl M). reflexivity.
  - unfold init_prompts.
    rewrite (L latest (new_loader (base_dir st) (language st)) eq_refl eq_refl
               (lookup_empty _)).
    destruct (validate_non_mapping config a D) as [-> | [msg ->]]; cbn; eauto.
Qed.

Lemma load_non_mapping_witness :
  load (disk [(lit "prompts/zh/note.yaml", PNone)] [lit "prompts/zh"]) plain_runtime
    (lit "note") latest fresh_loader = (Raise TypeError, fresh_loader).
Proof.
  exact (proj1 (proj2 (load_non_mapping
                         (disk [(lit "prompts/zh/note.yaml", PNone)] [lit "prompts/zh"])
                         plain_runtime (lit "note") latest fresh_loader PNone
                         eq_refl eq_refl eq_refl eq_refl)) eq_refl).
Defined.

(** ** The version of a template *)

Lemma read_and_store_result fs rt a v1 v2 st :
  fst (read_and_store fs rt a v1 st) = fst (read_and_store fs rt a v2 st).
Proof.
  unfold read_and_store. destruct (resolve_prompt_file fs st a) as [f|]; [|reflexivity].
  destruct (read_prompts fs rt f a); reflexivity.
Qed.

(** X11: the [version] of a [load] names the cache entry and nothing
    else: two loads that miss the cache read the same file and give the
    same result whatever their versions.  The entry is named by the text
    [agent_version_language], so a name and a version that join to the
    same text share one entry: after a load of agent [x_y] with version
    [z], a load of agent [x] with version [y_z] is answered from the cache
    with the definition of [x_y]. *)
Theorem version_names_the_entry fs rt st :
  (forall a v1 v2,
     cache st !! cache_key a v1 (language st) = None ->
     cache st !! cache_key a v2 (language st) = None ->
     fst (load fs rt a v1 st) = fst (load fs rt a v2 st)) /\
  (forall x y z p st1,
     load fs rt (x ++ lit "_" ++ y) z st = (Ok p, st1) ->
     forall fs', load fs' rt x (y ++ lit "_" ++ z) st1 = (Ok p, st1)).
Proof.
  split.
  - intros a v1 v2 M1 M2. rewrite (load_miss _ _ _ _ _ M1), (load_miss _ _ _ _ _ M2).
    apply read_and_store_result.
  - intros x y z p st1 H fs'. destruct (load_stores _ _ _ _ _ _ _ H) as [C L].
    apply load_hit. rewrite L. rewrite <- C. f_equal.
    unfold cache_key. rewrite <- !app_assoc. reflexivity.
Qed.

Lemma version_names_the_entry_witness :
  fst (load disk_before plain_runtime (lit "note") latest fresh_loader) =
    fst (load disk_before plain_runtime (lit "note") (lit "v2") fresh_loader) /\
  fst (load (disk [] []) plain_runtime (lit "plan") (lit "b_latest")
         (snd (load (disk [(lit "prompts/zh/plan_b.yaml", empty_raw_template)] [])
                 plain_runtime (lit "plan_b") latest fresh_loader))) =
    Ok empty_raw_template.
Proof.
  destruct (version_names_the_entry disk_before plain_runtime fresh_loader) as [A _].
  split; [exact (A (lit "note") latest (lit "v2") eq_refl eq_refl)|].
  destruct (version_names_the_entry
              (disk [(lit "prompts/zh/plan_b.yaml", empty_raw_template)] [])
              plain_runtime fresh_loader) as [_ B].
  assert (H : load (disk [(lit "prompts/zh/plan_b.yaml", empty_raw_template)] [])
                plain_runtime (lit "plan" ++ lit "_" ++ lit "b") latest fresh_loader =
              (Ok empty_raw_template,
               snd (load (disk [(lit "prompts/zh/plan_b.yaml", empty_raw_template)] [])
                      plain_runtime (lit "plan_b") latest fresh_loader)))
    by (vm_compute; reflexivity).
  exact (f_equal fst (B _ _ _ _ _ H (disk [] []))).
Defined.

(** ** The list of available prompts *)

Lemma str_leb_total a b : str_leb a b = false -> str_leb b a = true.
Proof.
  revert b. induction a as [|x a IH]; intros [|y b]; cbn [str_leb]; try congruence.
  destruct (N.ltb_spec x y); [discriminate|].
  destruct (N.ltb_spec y x); [reflexivity|]. apply IH.
Qed.

Lemma insert_sorted_ascending x l :
  ascending l = true -> ascending (insert_sorted x l) = true.
Proof.
  induction l as [|y l IH]; [reflexivity|]. intros A.
  cbn [insert_sorted]. destruct (str_leb x y) eqn:E.
  - cbn [ascending]. rewrite E. exact A.
  - apply str_leb_total in E. destruct l as [|z l].
    + cbn [insert_sorted ascending]. rewrite E. reflexivity.
    + cbn [ascending] in A. apply andb_true_iff in A as [A1 A2].
      specialize (IH A2). cbn [insert_sorted] in *.
      destruct (str_leb x z); cbn [ascending] in *.
      * rewrite E. exact IH.
      * rewrite A1. exact IH.
Qed.

Lemma py_sorted_ascending names : ascending (py_sorted names) = true.
Proof.
  induction names as [|x names IH]; [reflexivity|].
  cbn [py_sorted fold_right]. apply insert_sorted_ascending, IH.
Qed.

Lemma insert_sorted_perm x l : insert_sorted x l ≡ₚ x :: l.
Proof.
  induction l as [|y l IH]; [reflexivity|].
  cbn [insert_sorted]. destruct (str_leb x y); [reflexivity|].
  rewrite IH. apply Permutation_swap.
Qed.

Lemma py_sorted_perm names : py_sorted names ≡ₚ names.
Proof.
  induction names as [|x names IH]; [reflexivity|].
  cbn [py_sorted fold_right]. rewrite insert_sorted_perm.
  apply Permutation_skip, IH.
Qed.

Lemma before_slash_app x y :
  no_slash x = true -> before_slash (x ++ ch "/" :: y) = x.
Proof.
  induction x as [|c x IH]; cbn [no_slash forallb app before_slash].
  - rewrite N.eqb_refl. reflexivity.
  - intros H. apply andb_true_iff in H as [A B]. apply negb_true_iff in A.
    rewrite A, (IH B). reflexivity.
Qed.

Lemma no_slash_rev x : no_slash (rev x) = no_slash x.
Proof.
  unfold no_slash. induction x as [|c x IH]; [reflexivity|].
  cbn [rev forallb]. rewrite forallb_app, IH. cbn [forallb].
  rewrite andb_true_r. apply andb_comm.
Qed.

Lemma path_name_join dir name :
  no_slash name = true -> path_name (path_join dir name) = name.
Proof.
  intros H. unfold path_name, path_join.
  rewrite List.rev_app_distr. change (lit "/" ++ name) with (ch "/" :: name).
  cbn [rev]. rewrite <- app_assoc. cbn [app].
  rewrite before_slash_app by (rewrite no_slash_rev; exact H).
  apply List.rev_involutive.
Qed.

Lemma rfind_app c s t i :
  rfind c t = Some i -> rfind c (s ++ t) = Some (length s + i)%nat.
Proof.
  intros H. induction s as [|x s IH]; [exact H|].
  cbn [app rfind length]. rewrite IH. reflexivity.
Qed.

(** The stem of [dir/a.yaml] is [a]. *)
Lemma path_stem_yaml dir a :
  a <> [] -> no_slash a = true -> path_stem (path_join dir (yaml_name a)) = a.
Proof.
  intros Hne Hs. unfold path_stem.
  rewrite path_name_join.
  2:{ unfold yaml_name, no_slash. rewrite forallb_app. apply andb_true_iff.
      split; [exact Hs|reflexivity]. }
  unfold yaml_name. rewrite (rfind_app (ch ".") a (lit ".yaml") 0 eq_refl).
  rewrite Nat.add_0_r, length_app.
  assert (L : (0 < length a)%nat) by (destruct a; [congruence|cbn; lia]).
  replace (0 <? length a)%nat with true by (symmetry; apply Nat.ltb_lt; exact L).
  replace (length a <? length a + length (lit ".yaml") - 1)%nat with true
    by (symmetry; apply Nat.ltb_lt; cbn [length lit]; cbn; lia).
  cbn [andb]. apply take_app_length.
Qed.

(** X12: [list_available_prompts] gives the empty list when the language
    directory does not exist; otherwise, for a directory whose YAML files
    are [a.yaml] for the names [a] of a list, it gives these names in
    ascending order, each as often as it is in the list.  A language
    that is [None] or empty stands for the language of the loader. *)
Theorem list_available_prompts_names fs glob lang st names :
  let dir :=
    path_join (base_dir st)
      (match or_str lang with Some l => l | None => language st end) in
  glob dir (lit "*.yaml") = List.map (fun a => path_join dir (yaml_name a)) names ->
  Forall (fun a => a <> [] /\ no_slash a = true) names ->
  (fs_exists fs dir = false -> list_available_prompts fs glob lang st = []) /\
  (fs_exists fs dir = true ->
   list_available_prompts fs glob lang st = py_sorted names /\
   ascending (list_available_prompts fs glob lang st) = true /\
   list_available_prompts fs glob lang st ≡ₚ names).
Proof.
  intros dir G F. unfold list_available_prompts. fold dir. split.
  - intros ->. reflexivity.
  - intros ->. cbn [negb]. rewrite G, List.map_map.
    assert (E : List.map (fun a => path_stem (path_join dir (yaml_name a))) names = names).
    { clear G. induction F as [|a names [Hne Hs] F IH]; [reflexivity|].
      cbn [List.map]. rewrite (path_stem_yaml _ _ Hne Hs). f_equal. exact IH. }
    rewrite E. split; [reflexivity|].
    split; [apply py_sorted_ascending|apply py_sorted_perm].
Qed.

Lemma list_available_prompts_names_witness :
  list_available_prompts (disk [] [lit "prompts/zh"])
    (fun dir _ => [dir ++ lit "/solve.yaml"; dir ++ lit "/note.v2.yaml";
                   dir ++ lit "/Plan.yaml"])
    (Some []) fresh_loader =
  [lit "Plan"; lit "note.v2"; lit "solve"] /\
  list_available_prompts (disk [] [lit "prompts/zh"])
    (fun dir _ => [dir ++ lit "/solve.yaml"])
    (Some (lit "en")) fresh_loader = [].
Proof.
  split.
  - exact (proj1 (proj2 (list_available_prompts_names (disk [] [lit "prompts/zh"])
                           (fun dir _ => [dir ++ lit "/solve.yaml";
                                          dir ++ lit "/note.v2.yaml";
                                          dir ++ lit "/Plan.yaml"])
                           (Some []) fresh_loader
                           [lit "solve"; lit "note.v2"; lit "Plan"] eq_refl
                           ltac:(repeat constructor; discriminate))
                   eq_refl)).
  - exact (proj1 (list_available_prompts_names (disk [] [lit "prompts/zh"])
                    (fun dir _ => [dir ++ lit "/solve.yaml"])
                    (Some (lit "en")) fresh_loader [lit "solve"] eq_refl
                    ltac:(repeat constructor; discriminate))
             eq_refl).
Defined.

(** * More on the BaseAgent *)

(** ** Retries *)

Lemma py_get_not_dict v key default :
  is_dict v = false -> py_get v key default = Raise AttributeError.
Proof. destruct v; try discriminate; reflexivity. Qed.

(** X13: [get_max_retries] takes the [max_retries] of the agent's own
    section, else the one of the [llm] section, else 3; a value that is
    present is returned whatever it is.  The [llm] section is read first,
    so when it is no mapping (an empty [llm:] entry is [None]) the call
    raises [AttributeError] even for an agent that has its own
    [max_retries].  With neither [agents] nor [llm] in the configuration
    the answer is 3. *)
Theorem get_max_retries_precedence config agent_name agent_config llm_config :
  agent_settings config agent_name = Ok (agent_config, llm_config) ->
  (is_dict agent_config = false \/ is_dict llm_config = false ->
   get_max_retries agent_config llm_config = Raise AttributeError) /\
  (forall ad ld,
     agent_config = PDict ad -> llm_config = PDict ld ->
     get_max_retries agent_config llm_config =
     Ok (match dict_lookup ad (lit "max_retries") with
         | Some n => n
         | None =>
             match dict_lookup ld (lit "max_retries") with
             | Some n => n
             | None => PInt 3
             end
         end)) /\
  (py_in (lit "agents") config = Ok false ->
   py_in (lit "llm") config = Ok false ->
   get_max_retries agent_config llm_config = Ok (PInt 3)).
Proof.
  intros S. split; [|split].
  - intros [A|L]; unfold get_max_retries.
    + destruct llm_config as [ | | | | | |ld]; try reflexivity.
      cbn [py_get]. destruct (dict_lookup ld (lit "max_retries"));
        cbn [mbind res_bind]; apply py_get_not_dict, A.
    + rewrite (py_get_not_dict _ _ _ L). reflexivity.
  - intros ad ld -> ->. unfold get_max_retries. cbn [py_get].
    destruct (dict_lookup ld (lit "max_retries")); cbn [mbind res_bind py_get];
      destruct (dict_lookup ad (lit "max_retries")); reflexivity.
  - intros A L. unfold agent_settings in S.
    destruct config as [ | | | | | |d]; try discriminate S.
    cbn [py_in] in A, L. unfold dict_has in A, L. cbn [py_get] in S.
    destruct (dict_lookup d (lit "agents")); [discriminate A|].
    destruct (dict_lookup d (lit "llm")); [discriminate L|].
    cbn in S. inversion S; subst. reflexivity.
Qed.

Lemma get_max_retries_precedence_witness :
  agent_settings config_without_llm (lit "solve_agent") =
    Ok (PDict [(lit "max_retries", PInt 5)], PNone) /\
  get_max_retries (PDict [(lit "max_retries", PInt 5)]) PNone = Raise AttributeError.
Proof.
  split; [reflexivity|].
  exact (proj1 (get_max_retries_precedence config_without_llm (lit "solve_agent") _ _
                  eq_refl) (or_intror eq_refl)).
Defined.

(** ** [call_llm] with a model *)

Lemma usage_records_app a b :
  usage_records (a ++ b) = (usage_records a + usage_records b)%nat.
Proof. unfold usage_records. rewrite List.filter_app, length_app. reflexivity. Qed.

(** X14: with a non-empty [model] argument [call_llm] does not read the
    environment: it behaves the same whether [LLM_MODEL] is set or not.
    It sends one request, with that model and the agent's key and
    endpoint, and returns the response text of the completion as it is;
    an exception of the completion leaves [call_llm] as it is, after
    which no usage is recorded and no output is logged. *)
Theorem call_llm_explicit_model rt getenv complete a user_prompt system_prompt
    rf temp c m stage :
  call_llm rt getenv complete a user_prompt system_prompt rf temp (Some (c :: m)) stage =
  call_llm rt empty_env complete a user_prompt system_prompt rf temp (Some (c :: m)) stage /\
  exists rq before,
    rq_model rq = c :: m /\
    rq_prompt rq = user_prompt /\ rq_system_prompt rq = system_prompt /\
    rq_api_key rq = ba_api_key a /\ rq_base_url rq = ba_base_url a /\
    completions before = 0%nat /\
    match complete rq with
    | Ok (response, _) =>
        exists after,
          call_llm rt getenv complete a user_prompt system_prompt rf temp
            (Some (c :: m)) stage =
          (Ok response, before ++ EvComplete rq :: after) /\
          completions after = 0%nat
    | Raise e =>
        call_llm rt getenv complete a user_prompt system_prompt rf temp
          (Some (c :: m)) stage =
        (Raise e, before ++ [EvComplete rq]) /\
        usage_records (before ++ [EvComplete rq]) = 0%nat /\
        existsb is_log_output (before ++ [EvComplete rq]) = false
    end.
Proof.
  split; [reflexivity|].
  unfold call_llm. cbn [or_str].
  match goal with |- context [complete ?r] => set (rq := r) end.
  exists rq, (if ba_log_llm_input a
              then [EvLogInput (match or_str stage with
                                | Some s => s
                                | None => ba_agent_name a
                                end) system_prompt user_prompt (c :: m)]
              else []).
  repeat (split; [reflexivity|]).
  split; [destruct (ba_log_llm_input a); reflexivity|].
  destruct (complete rq) as [[response reported]|e].
  - eexists. split; [reflexivity|].
    unfold completions. rewrite List.filter_app, length_app.
    destruct (ba_token_tracker a) as [[|]|], reported as [counts|],
      (ba_log_llm_output a); try destruct (py_truthy rt counts); reflexivity.
  - split; [reflexivity|]. destruct (ba_log_llm_input a); split; reflexivity.
Qed.

(** X15: the usage records of a call.  Without a token tracker, and when
    the call raises, nothing is recorded.  With a tracker a call that
    returns records usage once, except when the completion reported token
    counts that are falsy (empty, zero): then the report and an estimate
    are both recorded. *)
Theorem call_llm_usage rt getenv complete a user_prompt system_prompt rf temp model stage :
  let r := call_llm rt getenv complete a user_prompt system_prompt rf temp model stage in
  (ba_token_tracker a = None -> usage_records (snd r) = 0%nat) /\
  (forall e, fst r = Raise e -> usage_records (snd r) = 0%nat) /\
  (forall kind response,
     ba_token_tracker a = Some kind -> fst r = Ok response ->
     exists rq reported,
       In (EvComplete rq) (snd r) /\ complete rq = Ok (response, reported) /\
       usage_records (snd r) =
       match reported with
       | Some counts => if py_truthy rt counts then 1%nat else 2%nat
       | None => 1%nat
       end).
Proof.
  intros r. subst r. unfold call_llm.
  destruct (match or_str model with Some m => Ok m | None => get_model getenv a end)
    as [m|e0].
  2:{ split; [reflexivity|]. split; [reflexivity|]. intros kind response _ H.
      discriminate H. }
  match goal with |- context [complete ?r] => set (rq := r) end.
  destruct (complete rq) as [[response reported]|e0] eqn:C; cbn [fst snd].
  - split; [|split].
    + intros ->. rewrite !usage_records_app.
      destruct (ba_log_llm_input a), (ba_log_llm_output a); reflexivity.
    + intros e H. discriminate H.
    + intros kind response0 K H. inversion H; subst response0.
      exists rq, reported. split; [|split; [exact C|]].
      * apply in_or_app. right. left. reflexivity.
      * rewrite K, !usage_records_app.
        destruct (ba_log_llm_input a), (ba_log_llm_output a), kind,
          reported as [counts|]; try destruct (py_truthy rt counts); reflexivity.
  - split; [|split].
    + intros _. rewrite usage_records_app.
      destruct (ba_log_llm_input a); reflexivity.
    + intros e _. rewrite usage_records_app.
      destruct (ba_log_llm_input a); reflexivity.
    + intros kind response _ H. discriminate H.
Qed.

Lemma call_llm_usage_witness :
  usage_records
    (snd (call_llm plain_runtime model_env empty_counts_complete sample_agent
            (lit "question") (lit "system") None None None None)) = 2%nat /\
  usage_records
    (snd (call_llm plain_runtime model_env echo_complete sample_agent
            (lit "question") (lit "system") None None None None)) = 1%nat.
Proof.
  destruct (call_llm_usage plain_runtime model_env empty_counts_complete sample_agent
              (lit "question") (lit "system") None None None None) as (_ & _ & A).
  destruct (call_llm_usage plain_runtime model_env echo_complete sample_agent
              (lit "question") (lit "system") None None None None) as (_ & _ & B).
  destruct (A BasicTracker (lit "ok") eq_refl eq_refl) as (rq1 & rep1 & _ & C1 & U1).
  destruct (B BasicTracker (lit "ok") eq_refl eq_refl) as (rq2 & rep2 & _ & C2 & U2).
  inversion C1; subst rep1. inversion C2; subst rep2.
  exact (conj U1 U2).
Defined.

(** ** The prompts of an agent *)




(** * More on the MaterialOrganizerAgent *)

(** X17: for at least one record, a list that [process] returns is never
    empty: when no point of the first response passes the validation the
    fallback extraction answers, and its list is not empty. *)
Theorem process_never_empty rt ag records thoughts l :
  records <> [] ->
  process rt ag records thoughts = Ok l ->
  l <> [].
Proof.
  intros Hne H. unfold process in H.
  apply bind_ok in H as (materials_text & _ & H). cbn zeta in H.
  apply bind_ok in H as (system_prompt & _ & H).
  apply bind_ok in H as (user_template & _ & H).
  apply bind_ok in H as (user_prompt & _ & H).
  apply bind_ok in H as (response & _ & H).
  unfold except_decode in H.
  match type of H with
  | match ?body with _ => _ end = _ => destruct body as [r|e] eqn:B
  end.
  - inversion H; subst r. clear H.
    apply bind_ok in B as (result & _ & B).
    apply bind_ok in B as (knowledge_points & _ & B).
    apply bind_ok in B as (n & _ & B).
    apply bind_ok in B as (points & _ & B).
    apply bind_ok in B as (validated & _ & B).
    destruct validated as [|k vs].
    + destruct records; [congruence|].
      apply (fallback_filled _ _ _ _ _ _ B).
    + inversion B; subst. discriminate.
  - destruct e; try discriminate H. apply (fallback_filled _ _ _ _ _ _ H).
Qed.

Lemma not_nil_cons {A} (l : list A) : l <> [] -> exists x rest, l = x :: rest.
Proof. destruct l as [|x rest]; [congruence|eauto]. Qed.

Lemma process_never_empty_witness :
  exists k rest, [{| knowledge_point := lit "A"; description := lit "B" |}] = k :: rest.
Proof.
  exact (not_nil_cons _
           (process_never_empty plain_runtime short_fallback_organizer one_record None _
              ltac:(discriminate) eq_refl)).
Defined.

(** X18: once its prompt is built, [_fallback_extract] always returns, and
    what it returns is not empty, whatever the model does: when the call
    raises, and when the response is no JSON, the list is the one
    synthetic topic that names the number of records. *)
Theorem fallback_always_answers rt ag call records thoughts m sp t up :
  fallback_materials rt 1 records = Ok m ->
  py_get (org_prompts ag) (lit "fallback_system") (PStr []) = Ok sp ->
  py_get (org_prompts ag) (lit "fallback_user_template") (PStr []) = Ok t ->
  format_template rt t
    [(lit "materials_text", m); (lit "user_thoughts", thoughts_line thoughts)] = Ok up ->
  exists l,
    _fallback_extract rt ag call records thoughts = Ok l /\
    l <> [] /\
    (forall e, org_call_llm ag call up sp = Raise e ->
               l = [synthetic_topic (length records)]) /\
    (forall response e,
       org_call_llm ag call up sp = Ok response ->
       json_loads response = Raise e ->
       l = [synthetic_topic (length records)]).
Proof.
  intros M S T F. unfold _fallback_extract.
  rewrite M. cbn [mbind res_bind]. rewrite S. cbn [mbind res_bind].
  rewrite T. cbn [mbind res_bind]. cbn zeta. unfold thoughts_line in F.
  match goal with
  | |- context [format_template ?a ?b ?c] =>
      replace (format_template a b c) with (@Ok str up) by (symmetry; exact F)
  end.
  cbn [mbind res_bind].
  destruct (org_call_llm ag call up sp) as [response|e] eqn:C; cbn [mbind res_bind].
  - destruct (json_loads response) as [result|e] eqn:J; cbn [mbind res_bind].
    + assert (X : forall l : list kpoint,
                (forall e, Ok response = Raise e :> res str ->
                           l = [synthetic_topic (length records)]) /\
                (forall response0 e,
                   Ok response = Ok response0 :> res str ->
                   json_loads response0 = Raise e ->
                   l = [synthetic_topic (length records)])).
      { intros l. split; [intros e H; discriminate H|].
        intros response0 e H H'. inversion H; subst. congruence. }
      match goal with
      | |- context [except_any ?b ?h] => destruct b as [l|e] eqn:B; cbn [except_any]
      end.
      * exists l. split; [reflexivity|]. split; [|apply X].
        apply bind_ok in B as (kps & _ & B).
        apply bind_ok in B as (points & _ & B).
        apply bind_ok in B as (validated & _ & B).
        inversion B; subst. destruct validated; discriminate.
      * eexists. split; [reflexivity|]. split; [discriminate|apply X].
    + cbn [except_any]. eexists. split; [reflexivity|]. split; [discriminate|].
      split; intros; reflexivity.
  - cbn [except_any]. eexists. split; [reflexivity|]. split; [discriminate|].
    split; intros; reflexivity.
Qed.

Lemma fallback_always_answers_witness :
  _fallback_extract plain_runtime offline_organizer 1 one_record (Some (lit "hm")) =
    Ok [synthetic_topic 1].
Proof.
  destruct (fallback_always_answers plain_runtime offline_organizer 1 one_record
              (Some (lit "hm")) _ _ _ _ eq_refl eq_refl eq_refl eq_refl)
    as (l & E & _ & R & _).
  rewrite E. f_equal. exact (R _ eq_refl).
Defined.

(** ** The fields of a point carry no surrounding whitespace *)

Lemma lstrip_starts_plain s : starts_plain (lstrip s) = true.
Proof.
  induction s as [|c s IH]; [reflexivity|].
  cbn [lstrip]. destruct (isspace c) eqn:E; [exact IH|].
  cbn [starts_plain]. rewrite E. reflexivity.
Qed.

Lemma lstrip_plain s : starts_plain s = true -> lstrip s = s.
Proof.
  destruct s as [|c s]; [reflexivity|]. cbn [starts_plain lstrip].
  intros H. apply negb_true_iff in H. rewrite H. reflexivity.
Qed.

Lemma lstrip_suffix s : exists w, s = w ++ lstrip s.
Proof.
  induction s as [|c s [w IH]]; [exists []; reflexivity|].
  cbn [lstrip]. destruct (isspace c).
  - exists (c :: w). cbn [app]. rewrite <- IH. reflexivity.
  - exists []. reflexivity.
Qed.

Lemma rstrip_starts_plain s : starts_plain s = true -> starts_plain (rstrip s) = true.
Proof.
  intros H. unfold rstrip. destruct (lstrip_suffix (rev s)) as [w E].
  apply (f_equal (@rev N)) in E. rewrite List.rev_involutive, List.rev_app_distr in E.
  destruct (rev (lstrip (rev s))) as [|c r]; [reflexivity|].
  rewrite E in H. exact H.
Qed.

Lemma strip_fixed t :
  starts_plain t = true -> starts_plain (rev t) = true -> strip t = t.
Proof.
  intros A B. unfold strip, rstrip.
  rewrite (lstrip_plain _ A), (lstrip_plain _ B). apply List.rev_involutive.
Qed.

Lemma strip_strip s : strip (strip s) = strip s.
Proof.
  apply strip_fixed.
  - unfold strip. apply rstrip_starts_plain, lstrip_starts_plain.
  - unfold strip, rstrip. rewrite List.rev_involutive. apply lstrip_starts_plain.
Qed.

Lemma validate_point_trimmed rt floor point k :
  validate_point rt floor point = Ok (Some k) -> trimmed k.
Proof.
  unfold validate_point. intros H.
  apply bind_ok in H as ([|] & _ & H); [|discriminate H].
  apply bind_ok in H as ([|] & _ & H); [|discriminate H].
  apply bind_ok in H as (kpv & _ & H).
  apply bind_ok in H as (dv & _ & H). cbn zeta in H.
  destruct (nonempty (strip (py_str rt kpv)) && nonempty (strip (py_str rt dv)) &&
            (floor <=? length (strip (py_str rt dv)))%nat); [|discriminate H].
  inversion H; subst. split; apply strip_strip.
Qed.

Lemma validate_points_trimmed rt floor points l :
  validate_points rt floor points = Ok l -> Forall trimmed l.
Proof.
  revert l. induction points as [|point points IH]; intros l H; cbn [validate_points] in H.
  - inversion H. constructor.
  - apply bind_ok in H as (r & R & H).
    apply bind_ok in H as (validated & V & H).
    inversion H; subst. specialize (IH _ V).
    destruct r as [k|]; [|exact IH].
    constructor; [apply (validate_point_trimmed _ _ _ _ R)|exact IH].
Qed.

Lemma framed_trimmed a x b c d :
  a <> [] -> starts_plain a = true -> starts_plain (rev (b ++ [c])) = true ->
  d = a ++ x ++ b ++ [c] -> strip d = d.
Proof.
  intros Hne A B ->. apply strip_fixed.
  - destruct a; [congruence|exact A].
  - rewrite !List.rev_app_distr. cbn [rev app]. rewrite List.rev_app_distr in B.
    exact B.
Qed.

Lemma synthetic_trimmed n : trimmed (synthetic_point n) /\ trimmed (synthetic_topic n).
Proof.
  split; split; cbn [synthetic_point synthetic_topic knowledge_point description];
    try reflexivity.
  - apply (framed_trimmed (lit "Comprehensive knowledge content based on ")
             (str_of_nat n)
             (lit " records, containing multiple research directions and concepts")
             (ch "."));
      [discriminate|reflexivity|reflexivity|reflexivity].
  - apply (framed_trimmed (lit "Based on the selected ")
             (str_of_nat n)
             (lit " notebook records, multiple research directions and knowledge points can be explored")
             (ch "."));
      [discriminate|reflexivity|reflexivity|reflexivity].
Qed.

Lemma fallback_trimmed rt ag call records thoughts l :
  _fallback_extract rt ag call records thoughts = Ok l -> Forall trimmed l.
Proof.
  unfold _fallback_extract. intros H.
  apply bind_ok in H as (materials_text & _ & H).
  apply bind_ok in H as (system_prompt & _ & H).
  apply bind_ok in H as (user_template & _ & H). cbn zeta in H.
  apply bind_ok in H as (user_prompt & _ & H).
  unfold except_any in H.
  match type of H with
  | match ?body with _ => _ end = _ => destruct body as [r|e] eqn:B
  end.
  - apply bind_ok in B as (response & _ & B).
    apply bind_ok in B as (result & _ & B).
    apply bind_ok in B as (knowledge_points & _ & B).
    apply bind_ok in B as (points & _ & B).
    apply bind_ok in B as (validated & V & B).
    inversion B; subst. inversion H; subst.
    destruct validated as [|k vs].
    + constructor; [apply synthetic_trimmed|constructor].
    + apply (validate_points_trimmed _ _ _ _ V).
  - inversion H; subst. constructor; [apply synthetic_trimmed|constructor].
Qed.

(** X19: every point that [process] or [_fallback_extract] returns has
    its two fields trimmed: [strip] leaves the knowledge point and the
    description as they are, so neither begins or ends with whitespace.
    This holds for the points taken from a response and for the synthetic
    ones. *)
Theorem process_points_trimmed rt ag records thoughts :
  (forall l, process rt ag records thoughts = Ok l -> Forall trimmed l) /\
  (forall call l,
     _fallback_extract rt ag call records thoughts = Ok l -> Forall trimmed l).
Proof.
  split; [|intros call l; apply fallback_trimmed].
  intros l H. unfold process in H.
  apply bind_ok in H as (materials_text & _ & H). cbn zeta in H.
  apply bind_ok in H as (system_prompt & _ & H).
  apply bind_ok in H as (user_template & _ & H).
  apply bind_ok in H as (user_prompt & _ & H).
  apply bind_ok in H as (response & _ & H).
  unfold except_decode in H.
  match type of H with
  | match ?body with _ => _ end = _ => destruct body as [r|e] eqn:B
  end.
  - inversion H; subst r. clear H.
    apply bind_ok in B as (result & _ & B).
    apply bind_ok in B as (knowledge_points & _ & B).
    apply bind_ok in B as (n & _ & B).
    apply bind_ok in B as (points & _ & B).
    apply bind_ok in B as (validated & V & B).
    apply validate_points_trimmed in V.
    destruct validated as [|k vs].
    + destruct records; [inversion B; constructor|].
      apply (fallback_trimmed _ _ _ _ _ _ B).
    + inversion B; subst. exact V.
  - destruct e; try discriminate H. apply (fallback_trimmed _ _ _ _ _ _ H).
Qed.

Lemma process_points_trimmed_witness :
  Forall trimmed [{| knowledge_point := lit "A"; description := lit "B" |}].
Proof.
  exact (proj1 (process_points_trimmed plain_runtime short_fallback_organizer one_record
                  None) _ eq_refl).
Defined.

(** ** The prompts of the organizer *)

Lemma process_without_mapping rt p call_llm records thoughts m :
  is_dict p = false ->
  materials rt 1 records = Ok m ->
  process rt {| org_prompts := p; org_call_llm := call_llm |} records thoughts =
  Raise AttributeError.
Proof.
  intros D M. unfold process. rewrite M. cbn [mbind res_bind org_prompts].
  rewrite (py_get_not_dict p (lit "system") _ D). reflexivity.
Qed.

(** X20: [_load_prompts] falls back to English only when the file of the
    language does not exist: then it gives what it gives for [en], and
    the empty mapping when the English file does not exist either.  A
    file that exists is read whatever it holds; when what YAML reads from
    it is no mapping (an empty file is [None]), an agent with these
    prompts raises [AttributeError] from [process] for any records whose
    text can be built, before the model is called. *)
Theorem load_prompts_fallback fs module_dir lang :
  (fs_exists fs (organizer_prompt_file module_dir lang) = false ->
   _load_prompts fs module_dir lang = _load_prompts fs module_dir (lit "en")) /\
  (fs_exists fs (organizer_prompt_file module_dir lang) = false ->
   fs_exists fs (organizer_prompt_file module_dir (lit "en")) = false ->
   _load_prompts fs module_dir lang = inr (PDict [])) /\
  (fs_exists fs (organizer_prompt_file module_dir lang) = true ->
   _load_prompts fs module_dir lang =
   fs_yaml fs (organizer_prompt_file module_dir lang)) /\
  (forall p rt call_llm records thoughts m,
     _load_prompts fs module_dir lang = inr p ->
     is_dict p = false ->
     materials rt 1 records = Ok m ->
     process rt {| org_prompts := p; org_call_llm := call_llm |} records thoughts =
     Raise AttributeError).
Proof.
  unfold _load_prompts. split; [|split; [|split]].
  - intros ->. destruct (fs_exists fs (organizer_prompt_file module_dir (lit "en")));
      reflexivity.
  - intros -> ->. reflexivity.
  - intros ->. reflexivity.
  - intros p rt call_llm records thoughts m _ D M.
    apply (process_without_mapping _ _ _ _ _ _ D M).
Qed.

Lemma load_prompts_fallback_witness :
  _load_prompts (disk [(lit "ideagen/prompts/en/material_organizer.yaml",
                        empty_raw_template)] [])
    (lit "ideagen") (lit "fr") = inr empty_raw_template /\
  process plain_runtime
    {| org_prompts := PNone; org_call_llm := org_call_llm diffusion_organizer |}
    one_record None = Raise AttributeError.
Proof.
  split.
  - destruct (load_prompts_fallback
                (disk [(lit "ideagen/prompts/en/material_organizer.yaml",
                        empty_raw_template)] [])
                (lit "ideagen") (lit "fr")) as (A & _).
    rewrite (A eq_refl). reflexivity.
  - destruct (load_prompts_fallback
                (disk [(lit "ideagen/prompts/zh/material_organizer.yaml", PNone)] [])
                (lit "ideagen") (lit "zh")) as (_ & _ & _ & B).
    exact (B PNone plain_runtime _ one_record None _ eq_refl eq_refl eq_refl).
Defined.

(** * BaseIdeaAgent.call_llm *)

Lemma or_config_explicit v params key : v <> PNone -> or_config v params key = Ok v.
Proof. destruct v; [congruence|reflexivity..]. Qed.

(** X21: [BaseIdeaAgent.call_llm].  With a temperature and a token limit
    given, the parameters of the configuration are not read.  When one of
    them is left out and the configuration does not hold it, the call
    raises what the lookup raises and nothing is sent.  Otherwise one
    request is sent, with the model, key and endpoint of the agent and a
    token limit in every case; the response is returned as it is and one
    entry is added to the statistics, after the completion; when the
    completion raises, its exception leaves the call and no statistics
    are added. *)
Theorem idea_call_llm_contract rt complete a user_prompt system_prompt rf
    temperature max_tokens :
  (temperature <> PNone -> max_tokens <> PNone ->
   forall params,
     idea_call_llm rt complete a user_prompt system_prompt rf temperature max_tokens =
     idea_call_llm rt complete
       {| ia_model := ia_model a; ia_api_key := ia_api_key a;
          ia_base_url := ia_base_url a; ia_agent_params := params |}
       user_prompt system_prompt rf temperature max_tokens) /\
  (forall e,
     py_getitem (ia_agent_params a) (lit "temperature") = Raise e ->
     idea_call_llm rt complete a user_prompt system_prompt rf PNone max_tokens =
     (Raise e, [])) /\
  (forall e,
     temperature <> PNone ->
     py_getitem (ia_agent_params a) (lit "max_tokens") = Raise e ->
     idea_call_llm rt complete a user_prompt system_prompt rf temperature PNone =
     (Raise e, [])) /\
  (forall response evs,
     idea_call_llm rt complete a user_prompt system_prompt rf temperature max_tokens =
     (Ok response, evs) ->
     exists rq,
       evs = [IdeaComplete rq;
              IdeaAddCall (ia_model a) system_prompt user_prompt response] /\
       complete rq = Ok response /\
       iq_model rq = ia_model a /\ iq_api_key rq = ia_api_key a /\
       iq_base_url rq = ia_base_url a /\
       iq_prompt rq = user_prompt /\ iq_system_prompt rq = system_prompt /\
       iq_response_format rq = (if py_truthy rt rf then Some rf else None)) /\
  (forall e evs,
     idea_call_llm rt complete a user_prompt system_prompt rf temperature max_tokens =
     (Raise e, evs) ->
     evs = [] \/ exists rq, evs = [IdeaComplete rq] /\ complete rq = Raise e).
Proof.
  split; [|split; [|split; [|split]]].
  - intros T M params. unfold idea_call_llm. cbn [ia_agent_params ia_model ia_api_key ia_base_url].
    rewrite !(or_config_explicit _ _ _ T), !(or_config_explicit _ _ _ M). reflexivity.
  - intros e H. unfold idea_call_llm. cbn [or_config]. rewrite H. reflexivity.
  - intros e T H. unfold idea_call_llm. rewrite (or_config_explicit _ _ _ T).
    cbn [or_config mbind res_bind]. rewrite H. reflexivity.
  - intros response evs H. unfold idea_call_llm in H.
    destruct (or_config temperature (ia_agent_params a) (lit "temperature")) as [t|];
      cbn [mbind res_bind] in H; [|discriminate H].
    destruct (or_config max_tokens (ia_agent_params a) (lit "max_tokens")) as [mt|];
      cbn [mbind res_bind] in H; [|discriminate H].
    match type of H with context [complete ?r] => set (rq := r) in * end.
    destruct (complete rq) as [resp|e] eqn:C; inversion H; subst.
    exists rq. repeat (split; [reflexivity|]). split; [exact C|].
    repeat (split; [reflexivity|]). reflexivity.
  - intros e evs H. unfold idea_call_llm in H.
    destruct (or_config temperature (ia_agent_params a) (lit "temperature")) as [t|];
      cbn [mbind res_bind] in H; [|inversion H; auto].
    destruct (or_config max_tokens (ia_agent_params a) (lit "max_tokens")) as [mt|];
      cbn [mbind res_bind] in H; [|inversion H; auto].
    match type of H with context [complete ?r] => set (rq := r) in * end.
    destruct (complete rq) as [resp|e'] eqn:C; inversion H; subst.
    right. exists rq. auto.
Qed.

Lemma idea_call_llm_contract_witness :
  idea_call_llm plain_runtime idea_echo sample_idea_agent (lit "question") (lit "system")
    PNone PNone PNone = (Raise (KeyError (lit "temperature")), []).
Proof.
  exact (proj1 (proj2 (idea_call_llm_contract plain_runtime idea_echo sample_idea_agent
                         (lit "question") (lit "system") PNone PNone PNone))
           _ eq_refl).
Defined.

(** * Structured templates that build *)

Lemma bullet_section_listable rt sd key header :
  listable rt sd key = true ->
  exists l, bullet_section rt (PDict sd) key header = Ok l /\
            Forall (fun x => is_str x = true) l.
Proof.
  unfold listable, bullet_section. cbn [py_get py_getitem].
  destruct (dict_lookup sd key) as [v|]; cbn [mbind res_bind];
    [|intros _; exists []; cbn; auto].
  destruct (py_truthy rt v); cbn [negb orb]; [|intros _; exists []; auto].
  intros H.
  assert (I : exists items, py_iter v = Ok items)
    by (destruct v; try discriminate H; cbn [py_iter]; eauto).
  destruct I as [items ->]. cbn [mbind res_bind]. eexists. split; [reflexivity|].
  repeat constructor. apply Forall_forall. intros x Hx.
  apply list_elem_of_In, in_map_iff in Hx. destruct Hx as (y & <- & _). reflexivity.
Qed.

Lemma py_join_strs sep parts :
  Forall (fun x => is_str x = true) parts -> exists s, py_join sep parts = Ok s.
Proof.
  intros F. unfold py_join.
  assert (P : exists ss, str_parts parts = Ok ss).
  { induction F as [|x parts Hx F [ss IH]]; [exists []; reflexivity|].
    destruct x; try discriminate Hx. cbn [str_parts]. rewrite IH. cbn. eauto. }
  destruct P as [ss ->]. cbn. eauto.
Qed.

(** X22: a structured template that validates builds whenever its parts
    have the expected kinds: the [task] is a text, the [user] section is
    a mapping, each of [requirements], [constraints] and [notes] is
    unset, falsy or something that can be listed, and [output_format] is
    unset, falsy or a text.  The definition built has exactly the entries
    [system], [user_template] and [output_format]: the user template is
    the [template] of the file as it is, the output format is the one of
    the file or the empty text, and further keys of the file are
    dropped. *)
Theorem structured_build_succeeds rt config a d sd t ud :
  _validate_config config a = Ok Structured ->
  config = PDict d ->
  dict_lookup d (lit "system") = Some (PDict sd) ->
  dict_lookup sd (lit "task") = Some (PStr t) ->
  dict_lookup d (lit "user") = Some (PDict ud) ->
  listable rt sd (lit "requirements") = true ->
  listable rt sd (lit "constraints") = true ->
  listable rt sd (lit "notes") = true ->
  format_ok rt sd = true ->
  exists sp u,
    dict_lookup ud (lit "template") = Some u /\
    _build_prompts rt config Structured =
    Ok (PDict [(lit "system", PStr sp);
               (lit "user_template", u);
               (lit "output_format",
                match dict_lookup sd (lit "output_format") with
                | Some f => if py_truthy rt f then f else PStr []
                | None => PStr []
                end)]).
Proof.
  intros V -> Ls Lt Lu R C N F.
  destruct (validate_structured _ _ V)
    as (d0 & sd0 & role & task & uc & E & Ls0 & Lr & Lt0 & Lu0 & Kp).
  inversion E; subst d0. rewrite Ls in Ls0. inversion Ls0; subst sd0.
  rewrite Lu in Lu0. inversion Lu0; subst uc. clear E Ls0 Lu0 Lt0.
  cbn [py_in] in Kp. assert (Kt : dict_has ud (lit "template") = true) by congruence.
  destruct (dict_has_lookup _ _ Kt) as [u Ltp].
  cbn [_build_prompts]. unfold build_structured. cbn [py_getitem].
  rewrite Ls, Lu. cbn [mbind res_bind py_getitem]. rewrite Lr, Lt.
  cbn [mbind res_bind].
  destruct (bullet_section_listable rt sd _ (lit "Requirements:") R) as (l1 & -> & F1).
  cbn [mbind res_bind].
  destruct (bullet_section_listable rt sd _ (lit "Constraints:") C) as (l2 & -> & F2).
  cbn [mbind res_bind py_get].
  destruct (bullet_section_listable rt sd _ (lit "Notes:") N) as (l3 & E3 & F3).
  unfold format_ok in F.
  destruct (dict_lookup sd (lit "output_format")) as [fmt|]; cbn [mbind res_bind].
  - rewrite E3. cbn [mbind res_bind].
    match goal with
    | |- context [py_join ?s ?l] => destruct (py_join_strs s l) as [sp ->]
    end.
    { repeat constructor. apply Forall_app. split; [exact F1|].
      apply Forall_app. split; [exact F2|]. apply Forall_app. split; [|exact F3].
      destruct (py_truthy rt fmt); cbn [negb orb] in F; repeat constructor. exact F. }
    cbn [mbind res_bind]. rewrite Ltp. cbn [mbind res_bind].
    exists sp, u. split; reflexivity.
  - rewrite E3. cbn [mbind res_bind].
    match goal with
    | |- context [py_join ?s ?l] => destruct (py_join_strs s l) as [sp ->]
    end.
    { repeat constructor. apply Forall_app. split; [exact F1|].
      apply Forall_app. split; [exact F2|]. exact F3. }
    cbn [mbind res_bind]. rewrite Ltp. cbn [mbind res_bind].
    exists sp, u. split; reflexivity.
Qed.

Lemma structured_build_succeeds_witness :
  exists sp u,
    dict_lookup [(lit "template", PStr [])] (lit "template") = Some u /\
    _build_prompts plain_runtime empty_structured_template Structured =
    Ok (PDict [(lit "system", PStr sp); (lit "user_template", u);
               (lit "output_format", PStr [])]).
Proof.
  exact (structured_build_succeeds plain_runtime empty_structured_template (lit "plan")
           _ _ _ _ eq_refl eq_refl eq_refl eq_refl eq_refl eq_refl eq_refl eq_refl
           eq_refl).
Defined.

(** * What [load] can raise *)








(** * What the extraction returns is read from the text *)

Lemma part_of_refl s : part_of s s.
Proof. exists [], []. rewrite app_nil_r. reflexivity. Qed.

Lemma part_of_trans a b c : part_of a b -> part_of b c -> part_of a c.
Proof.
  intros (x & y & ->) (u & w & ->). exists (u ++ x), (y ++ w).
  rewrite <- !app_assoc. reflexivity.
Qed.

Lemma part_of_slice text i j : part_of (slice text i j) text.
Proof.
  unfold slice. exists (take i text), (drop (j - i) (drop i text)).
  rewrite take_drop, take_drop. reflexivity.
Qed.

Lemma part_of_lstrip s : part_of (lstrip s) s.
Proof.
  destruct (lstrip_suffix s) as [w E]. exists w, []. rewrite app_nil_r. exact E.
Qed.

Lemma part_of_rev a b : part_of a b -> part_of (rev a) (rev b).
Proof.
  intros (x & y & ->). exists (rev y), (rev x).
  rewrite !List.rev_app_distr, <- app_assoc. reflexivity.
Qed.

Lemma part_of_strip s : part_of (strip s) s.
Proof.
  unfold strip, rstrip. apply part_of_trans with (lstrip s); [|apply part_of_lstrip].
  rewrite <- (List.rev_involutive (lstrip s)) at 2.
  apply part_of_rev, part_of_lstrip.
Qed.

Lemma parsed_some c v :
  parsed c = Some v -> exists s, c = Some s /\ json_loads s = Ok v.
Proof.
  unfold parsed. destruct c as [s|]; [|discriminate].
  destruct (json_loads s) as [x|] eqn:E; [|discriminate].
  intros H. inversion H; subst. eauto.
Qed.

(** X24: the extraction invents nothing: a result other than [None] is
    what [json.loads] reads from a contiguous part of the text (the inner
    content of a fenced block, the whole text, or a span from a brace or
    bracket to a closing one). *)
Theorem extract_reads_a_part (text : str) (v : pyval) :
  extract_json_from_text text = Ok v ->
  v <> PNone ->
  exists sub, part_of sub text /\ json_loads sub = Ok v.
Proof.
  rewrite extract_stages. intros H Hv.
  assert (E : first_success (stages text) = v) by congruence. clear H.
  unfold stages in E.
  assert (F : forall c rest,
            (forall s, c = Some s -> part_of s text) ->
            (first_success rest = v -> exists sub, part_of sub text /\ json_loads sub = Ok v) ->
            first_success (parsed c :: rest) = v ->
            exists sub, part_of sub text /\ json_loads sub = Ok v).
  { intros c rest P K. cbn [first_success].
    destruct (parsed c) as [x|] eqn:Ec; [|exact K].
    intros ->. destruct (parsed_some _ _ Ec) as (s & -> & L).
    exists s. split; [apply P; reflexivity|exact L]. }
  revert E. apply F.
  { intros s Hs. unfold fenced_block in Hs.
    destruct (re_search code_block_pattern text) as [m|]; [|discriminate Hs].
    inversion Hs; subst. unfold group1.
    apply part_of_trans with (slice text (sp_gopen m.2) (sp_gclose m.2));
      [apply part_of_strip|apply part_of_slice]. }
  apply F.
  { intros s Hs. inversion Hs; subst. apply part_of_refl. }
  apply F.
  { intros s Hs. unfold object_span in Hs.
    destruct (re_search json_obj_pattern text) as [m|]; [|discriminate Hs].
    inversion Hs; subst. apply part_of_slice. }
  apply F.
  { intros s Hs. unfold array_span in Hs.
    destruct (re_search json_arr_pattern text) as [m|]; [|discriminate Hs].
    inversion Hs; subst. apply part_of_slice. }
  cbn [first_success]. intros E. congruence.
Qed.

Lemma extract_reads_a_part_witness :
  exists sub,
    part_of sub (qlit "x {'a': [1]} y") /\
    json_loads sub = Ok (PDict [(lit "a", PList [PInt 1])]).
Proof.
  exact (extract_reads_a_part (qlit "x {'a': [1]} y") (PDict [(lit "a", PList [PInt 1])])
           eq_refl ltac:(discriminate)).
Defined.
